(** * Eternia Healthcare appointment table: a model of [script.js]

    The page script keeps a table of appointment rows, three text inputs,
    a row counter and an add button.  The development below embeds the
    script's functions over an explicit page state and proves the
    properties of the row manager: phone-number validation, the capacity
    bound, the submission flow and the done-toggle. *)

From Stdlib Require Import NArith List Lia String Ascii Bool.
From Stdlib Require DecimalNat.
From stdpp Require Import base decidable numbers list.

Local Open Scope N_scope.

(** ** JavaScript strings

    A JS string is a sequence of UTF-16 code units.  Regular expressions
    without the [u] flag and [String.prototype.trim] both work on code
    units, so this is the level the script observes. *)

Module JS.

Abbreviation jsstring := (list N).

(** A source literal that only uses ASCII characters. *)
Definition lit (s : string) : jsstring :=
  map N_of_ascii (list_ascii_of_string s).

(** ECMAScript WhiteSpace: TAB, VT, FF, SP, NBSP, ZWNBSP and the
    Unicode space separators (category Zs). *)
Definition isWhiteSpace (c : N) : bool :=
  (c =? 0x9) || (c =? 0xB) || (c =? 0xC) || (c =? 0x20) || (c =? 0xA0)
  || (c =? 0xFEFF) || (c =? 0x1680)
  || ((0x2000 <=? c) && (c <=? 0x200A))
  || (c =? 0x202F) || (c =? 0x205F) || (c =? 0x3000).

(** ECMAScript LineTerminator: LF, CR, LS, PS. *)
Definition isLineTerminator (c : N) : bool :=
  (c =? 0xA) || (c =? 0xD) || (c =? 0x2028) || (c =? 0x2029).

(** The class [\s], which is also the set [trim] strips. *)
Definition isSpace (c : N) : bool := isWhiteSpace c || isLineTerminator c.

(** The class [\d]: the ten ASCII digits. *)
Definition isDigit (c : N) : bool := (0x30 <=? c) && (c <=? 0x39).

(** [s.trimStart()] *)
Fixpoint trimStart (s : jsstring) : jsstring :=
  match s with
  | [] => []
  | c :: r => if isSpace c then trimStart r else s
  end.

(** [s.trimEnd()] *)
Definition trimEnd (s : jsstring) : jsstring :=
  reverse (trimStart (reverse s)).

(** [s.trim()] *)
Definition trim (s : jsstring) : jsstring := trimEnd (trimStart s).

(** ToBoolean on a string: only the empty string is falsy. *)
Definition truthy (s : jsstring) : bool :=
  match s with [] => false | _ :: _ => true end.

(** [s.replace(/[cls]/g, repl)] for a one-character class: scan from
    the left, every code unit the class accepts is a match and is
    replaced, the others are copied. *)
Fixpoint replaceClassGlobal (cls : N -> bool) (repl : jsstring)
         (s : jsstring) : jsstring :=
  match s with
  | [] => []
  | c :: r =>
      if cls c then repl ++ replaceClassGlobal cls repl r
      else c :: replaceClassGlobal cls repl r
  end.

(** Matching [cls{n}] at the head of [s]: the rest of the input after
    exactly [n] code units of the class, if they are there. *)
Fixpoint matchRepeat (cls : N -> bool) (n : nat) (s : jsstring)
  : option jsstring :=
  match n with
  | O => Some s
  | S n' =>
      match s with
      | [] => None
      | c :: r => if cls c then matchRepeat cls n' r else None
      end
  end.

(** [/^cls{n}$/.test(s)]: no [m] flag, so [^] only matches at index 0
    and [$] only at the end of the input. *)
Definition testAnchoredRepeat (cls : N -> bool) (n : nat) (s : jsstring)
  : bool :=
  match matchRepeat cls n s with
  | Some [] => true
  | _ => false
  end.

(** *** DOMTokenList ([classList]) *)

Definition contains (tok : jsstring) (cl : list jsstring) : bool :=
  bool_decide (tok ∈ cl).

Definition add (tok : jsstring) (cl : list jsstring) : list jsstring :=
  if contains tok cl then cl else cl ++ [tok].

Definition remove (tok : jsstring) (cl : list jsstring) : list jsstring :=
  filter (λ t, t ≠ tok) cl.

(** *** Number to string *)

Fixpoint uintUnits (d : Decimal.uint) : jsstring :=
  match d with
  | Decimal.Nil => []
  | Decimal.D0 d => 0x30 :: uintUnits d
  | Decimal.D1 d => 0x31 :: uintUnits d
  | Decimal.D2 d => 0x32 :: uintUnits d
  | Decimal.D3 d => 0x33 :: uintUnits d
  | Decimal.D4 d => 0x34 :: uintUnits d
  | Decimal.D5 d => 0x35 :: uintUnits d
  | Decimal.D6 d => 0x36 :: uintUnits d
  | Decimal.D7 d => 0x37 :: uintUnits d
  | Decimal.D8 d => 0x38 :: uintUnits d
  | Decimal.D9 d => 0x39 :: uintUnits d
  end.

(** ToString of a non-negative integer. *)
Definition numberToString (n : nat) : jsstring := uintUnits (Nat.to_uint n).

End JS.

Import JS.

(** ** Phone-number validation *)

(** The class [[\s\-\(\)]]. *)
Definition isSeparator (c : N) : bool :=
  isSpace c || (c =? 0x2D) || (c =? 0x28) || (c =? 0x29).

(** [isValidPhoneNumber], lines 21-28. *)
Definition isValidPhoneNumber (numberString : jsstring) : bool :=
  let cleanedNumber := replaceClassGlobal isSeparator [] numberString in
  testAnchoredRepeat isDigit 10 cleanedNumber.

(** What the specification says: drop every whitespace, hyphen and
    parenthesis character, then ask for exactly ten decimal digits. *)
Definition spec_stripped (c : N) : Prop :=
  isSpace c = true ∨ c = 0x2D ∨ c = 0x28 ∨ c = 0x29.

Definition spec_cleaned (s : jsstring) : jsstring :=
  filter (λ c, ¬ spec_stripped c) s.

Definition spec_validPhone (s : jsstring) : Prop :=
  length (spec_cleaned s) = 10%nat ∧
  Forall (λ c, isDigit c = true) (spec_cleaned s).

(** ** The page

    The part of the document the script reads and writes: the rows of
    [#todo-table tbody], the values of the three inputs, the counter
    span, the limit message, the add button, and the notices raised with
    [alert] (a log, oldest first). *)

Module Dom.

Record Cell := mkCell {
  textContent : jsstring;
  dataLabel : option jsstring }.

Record Button := mkButton {
  classList : list jsstring;
  buttonText : jsstring }.

(** A [tr]: three text cells, the cell holding the check button, and
    the inline [style.opacity] of the row (the empty string while the
    inline style does not set it). *)
Record Row := mkRow {
  nameCell : Cell;
  numberCell : Cell;
  areaCell : Cell;
  buttonCellLabel : option jsstring;
  checkButton : Button;
  styleOpacity : jsstring }.

Record Page := mkPage {
  tableBody : list Row;
  nameInput : jsstring;
  numberInput : jsstring;
  areaInput : jsstring;
  rowCountSpan : jsstring;
  limitMessage : list jsstring;
  addRowButtonDisabled : bool;
  addRowButtonText : jsstring;
  alerts : list jsstring }.

(** [alert(msg)] *)
Definition alert (msg : jsstring) (p : Page) : Page :=
  mkPage (tableBody p) (nameInput p) (numberInput p) (areaInput p)
         (rowCountSpan p) (limitMessage p) (addRowButtonDisabled p)
         (addRowButtonText p) (alerts p ++ [msg]).

(** [tableBody.appendChild(row)] *)
Definition appendChild (r : Row) (p : Page) : Page :=
  mkPage (tableBody p ++ [r]) (nameInput p) (numberInput p) (areaInput p)
         (rowCountSpan p) (limitMessage p) (addRowButtonDisabled p)
         (addRowButtonText p) (alerts p).

(** The table body replaced as a whole; everything else kept. *)
Definition withRows (rows : list Row) (p : Page) : Page :=
  mkPage rows (nameInput p) (numberInput p) (areaInput p)
         (rowCountSpan p) (limitMessage p) (addRowButtonDisabled p)
         (addRowButtonText p) (alerts p).

(** The three input values assigned. *)
Definition setInputs (n num a : jsstring) (p : Page) : Page :=
  mkPage (tableBody p) n num a
         (rowCountSpan p) (limitMessage p) (addRowButtonDisabled p)
         (addRowButtonText p) (alerts p).

End Dom.

Import Dom.

(** ** The script *)

Definition MAX_ROWS : nat := 160.

Definition CHECKED_GLYPH : jsstring := [0x2714].
Definition UNCHECKED_GLYPH : jsstring := [0x2610].

Definition MSG_FILL : jsstring :=
  lit "Please fill in all three fields to add an appointment.".

Definition MSG_PHONE : jsstring :=
  lit "The Doctor's Number must be a valid 10-digit number (dashes or spaces are allowed but only 10 digits total).".

(** [updateRowCount], lines 33-47. *)
Definition updateRowCount (p : Page) : Page :=
  let currentRowCount := length (tableBody p) in
  if (MAX_ROWS <=? currentRowCount)%nat then
    mkPage (tableBody p) (nameInput p) (numberInput p) (areaInput p)
           (numberToString currentRowCount)
           (add (lit "limit-reached") (limitMessage p))
           true (lit "Limit Reached") (alerts p)
  else
    mkPage (tableBody p) (nameInput p) (numberInput p) (areaInput p)
           (numberToString currentRowCount)
           (remove (lit "limit-reached") (limitMessage p))
           false (lit "Add Appointment") (alerts p).

(** [createNewRow], lines 56-90.  A new [tr] has no inline style. *)
Definition createNewRow (name number area : jsstring) : Row :=
  let nameCell := mkCell name (Some (lit "Doctor's Name")) in
  let numberCell := mkCell number (Some (lit "Doctor's Number")) in
  let areaCell := mkCell area (Some (lit "Area")) in
  let checkButton :=
    mkButton (add (lit "unchecked") (add (lit "check-button") []))
             UNCHECKED_GLYPH in
  mkRow nameCell numberCell areaCell (Some (lit "Done")) checkButton [].

(** [toggleCheck], lines 96-112, on the row [button.closest('tr')] of
    the clicked button. *)
Definition toggleCheck (r : Row) : Row :=
  let button := checkButton r in
  if contains (lit "unchecked") (classList button) then
    mkRow (nameCell r) (numberCell r) (areaCell r) (buttonCellLabel r)
          (mkButton
             (add (lit "checked") (remove (lit "unchecked") (classList button)))
             CHECKED_GLYPH)
          (lit "0.6")
  else
    mkRow (nameCell r) (numberCell r) (areaCell r) (buttonCellLabel r)
          (mkButton
             (add (lit "unchecked") (remove (lit "checked") (classList button)))
             UNCHECKED_GLYPH)
          (lit "1").

(** [handleAddRow], lines 120-149. *)
Definition handleAddRow (p : Page) : Page :=
  let name := trim (nameInput p) in
  let number := trim (numberInput p) in
  let area := trim (areaInput p) in
  if negb (truthy name) || negb (truthy number) || negb (truthy area) then
    alert MSG_FILL p
  else if negb (isValidPhoneNumber number) then
    alert MSG_PHONE p
  else if (length (tableBody p) <? MAX_ROWS)%nat then
    let newRow := createNewRow name number area in
    updateRowCount (setInputs [] [] [] (appendChild newRow p))
  else p.

(** *** Listeners, lines 153-175 *)

Inductive Field := NameField | NumberField | AreaField.

(** The add control activated.  Its click listener is [handleAddRow]
    (line 154); [updateRowCount] disables the button once the table
    holds 160 rows (line 40), and a disabled button delivers no click,
    so the listener runs only while the button is enabled. *)
Definition onAddRowClick (p : Page) : Page :=
  if addRowButtonDisabled p then p else handleAddRow p.

(** The keypress listener installed on each of the three inputs. *)
Definition onInputKeypress (f : Field) (key : jsstring) (p : Page) : Page :=
  if bool_decide (key = lit "Enter") then handleAddRow p else p.

(** The click listener of the check button of row [i]. *)
Definition onCheckClick (i : nat) (p : Page) : Page :=
  withRows (alter toggleCheck i (tableBody p)) p.

(** The user edits a field: its value becomes [v]. *)
Definition typeInto (f : Field) (v : jsstring) (p : Page) : Page :=
  match f with
  | NameField => setInputs v (numberInput p) (areaInput p) p
  | NumberField => setInputs (nameInput p) v (areaInput p) p
  | AreaField => setInputs (nameInput p) (numberInput p) v p
  end.

(** What the user does on the page: an edit of a field, an activation of
    the add control, a key-press in a field, an activation of the check
    button of a row. *)
Inductive Event :=
| Typed (f : Field) (v : jsstring)
| AddClicked
| KeyPressed (f : Field) (key : jsstring)
| CheckClicked (i : nat).

Definition dispatch (e : Event) (p : Page) : Page :=
  match e with
  | Typed f v => typeInto f v p
  | AddClicked => onAddRowClick p
  | KeyPressed f key => onInputKeypress f key p
  | CheckClicked i => onCheckClick i p
  end.

(** The event queue is processed in order, each handler to completion. *)
Fixpoint run (evs : list Event) (p : Page) : Page :=
  match evs with
  | [] => p
  | e :: rest => run rest (dispatch e p)
  end.

(** The pages reached while [evs] is processed, the start included. *)
Fixpoint reached (evs : list Event) (p : Page) : list Page :=
  match evs with
  | [] => [p]
  | e :: rest => p :: reached rest (dispatch e p)
  end.

(** *** Vocabulary of the claims *)

(** Some field is empty once trimmed. *)
Definition missingField (p : Page) : bool :=
  negb (truthy (trim (nameInput p)))
  || negb (truthy (trim (numberInput p)))
  || negb (truthy (trim (areaInput p))).

(** The trimmed number does not pass [isValidPhoneNumber]. *)
Definition invalidPhone (p : Page) : bool :=
  negb (isValidPhoneNumber (trim (numberInput p))).

(** One submission attempt: the three fields are filled in, then Enter
    is pressed in the last one. *)
Definition submit (x : jsstring * jsstring * jsstring) (p : Page) : Page :=
  let '(n, num, a) := x in
  run [Typed NameField n; Typed NumberField num; Typed AreaField a;
       KeyPressed AreaField (lit "Enter")] p.

Definition validInput (x : jsstring * jsstring * jsstring) : bool :=
  let '(n, num, a) := x in
  truthy (trim n) && truthy (trim num) && truthy (trim a)
  && isValidPhoneNumber (trim num).

(** No whitespace at either end. *)
Definition noOuterSpace (s : jsstring) : bool :=
  match s, reverse s with
  | c :: _, d :: _ => negb (isSpace c) && negb (isSpace d)
  | _, _ => true
  end.

(** Submission attempts one after the other. *)
Definition submitAll (xs : list (jsstring * jsstring * jsstring)) (p : Page)
  : Page :=
  fold_left (λ q x, submit x q) xs p.

(** An Enter key-press rewritten as an activation of the add control;
    every other event is kept. *)
Definition enterAsClick (e : Event) : Event :=
  match e with
  | KeyPressed f key =>
      if bool_decide (key = lit "Enter") then AddClicked else e
  | _ => e
  end.

(** *** Sample pages *)

(** A page with no rows, empty inputs and no notice, after the initial
    [updateRowCount] of line 178. *)
Definition blankPage : Page :=
  updateRowCount (mkPage [] [] [] [] [] [] false [] []).

Definition sampleRow : Row :=
  createNewRow (lit "Dr. Rao") (lit "123-456-7890") (lit "Cardiology").

(** A table at capacity whose counter and add button were not
    refreshed, with a complete, valid draft in the inputs. *)
Definition fullStalePage : Page :=
  mkPage (replicate MAX_ROWS sampleRow)
         (lit "Dr. Sen") (lit "(123) 456-7890") (lit "Neurology")
         (lit "159") [] false (lit "Add Appointment") [].

(** The blank page with a draft typed into the three inputs. *)
Definition draftPage (n num a : jsstring) : Page :=
  run [Typed NameField n; Typed NumberField num; Typed AreaField a] blankPage.

Definition validDraft : jsstring * jsstring * jsstring :=
  (lit "Dr. Rao", lit "(123) 456-7890", lit "Cardiology").

(** *** Initial set-up, lines 165-178 *)

(** The four [data-label] attributes written on one row that was in the
    table before the script ran. *)
Definition setRowLabels (r : Row) : Row :=
  mkRow (mkCell (textContent (nameCell r)) (Some (lit "Doctor's Name")))
        (mkCell (textContent (numberCell r)) (Some (lit "Doctor's Number")))
        (mkCell (textContent (areaCell r)) (Some (lit "Area")))
        (Some (lit "Done"))
        (checkButton r) (styleOpacity r).

(** Steps 3 and 4 of the set-up: every row already in the table gets its
    labels, then the counter is refreshed.  The listeners installed by
    steps 1 to 3 are the ones [dispatch] runs. *)
Definition initialize (p : Page) : Page :=
  updateRowCount (withRows (map setRowLabels (tableBody p)) p).

(** *** Vocabulary of the further properties *)

Definition isUnchecked (r : Row) : bool :=
  contains (lit "unchecked") (classList (checkButton r)).

Definition isChecked (r : Row) : bool :=
  contains (lit "checked") (classList (checkButton r)).

(** The counter, the add button and the limit marker agree with the
    number of rows in the table. *)
Definition displayInSync (p : Page) : Prop :=
  rowCountSpan p = numberToString (length (tableBody p))
  ∧ addRowButtonDisabled p = (MAX_ROWS <=? length (tableBody p))%nat
  ∧ addRowButtonText p =
      (if (MAX_ROWS <=? length (tableBody p))%nat
       then lit "Limit Reached" else lit "Add Appointment")
  ∧ contains (lit "limit-reached") (limitMessage p)
    = (MAX_ROWS <=? length (tableBody p))%nat.

(** The four cells of a row carry the labels of their columns. *)
Definition rowLabelled (r : Row) : Prop :=
  dataLabel (nameCell r) = Some (lit "Doctor's Name")
  ∧ dataLabel (numberCell r) = Some (lit "Doctor's Number")
  ∧ dataLabel (areaCell r) = Some (lit "Area")
  ∧ buttonCellLabel r = Some (lit "Done").

(** The button of a row is in one of its two states and the glyph and
    the opacity of the row go with that state. *)
Definition toggleCoherent (r : Row) : Prop :=
  isChecked r = negb (isUnchecked r)
  ∧ buttonText (checkButton r)
    = (if isUnchecked r then UNCHECKED_GLYPH else CHECKED_GLYPH)
  ∧ (if isUnchecked r
     then styleOpacity r = [] ∨ styleOpacity r = lit "1"
     else styleOpacity r = lit "0.6").

(** A row as the script shows it: labelled, with a check button that has
    its [check-button] class (so that the set-up gives it the click
    listener) and is in a coherent state. *)
Definition rowPresentable (r : Row) : Prop :=
  rowLabelled r
  ∧ toggleCoherent r
  ∧ contains (lit "check-button") (classList (checkButton r)) = true.

(** What a row added by a submission holds: three non-empty texts with
    no whitespace at either end, the second one a valid phone number. *)
Definition storedValid (r : Row) : Prop :=
  textContent (nameCell r) ≠ []
  ∧ textContent (areaCell r) ≠ []
  ∧ isValidPhoneNumber (textContent (numberCell r)) = true
  ∧ noOuterSpace (textContent (nameCell r)) = true
  ∧ noOuterSpace (textContent (numberCell r)) = true
  ∧ noOuterSpace (textContent (areaCell r)) = true.

(** A draft that is empty or made of whitespace only. *)
Definition blank (s : jsstring) : Prop := Forall (λ c, isSpace c = true) s.

(** The texts of the three data cells of a row. *)
Definition rowTexts (r : Row) : jsstring * jsstring * jsstring :=
  (textContent (nameCell r), textContent (numberCell r),
   textContent (areaCell r)).

(** The three data cells of a row, texts and labels. *)
Definition rowCells (r : Row) : Cell * Cell * Cell :=
  (nameCell r, numberCell r, areaCell r).

(** The row a valid submission of [x] appends. *)
Definition rowOf (x : jsstring * jsstring * jsstring) : Row :=
  let '(n, num, a) := x in createNewRow (trim n) (trim num) (trim a).

(** The events that can call [handleAddRow]. *)
Definition isAttempt (e : Event) : bool :=
  match e with
  | AddClicked => true
  | KeyPressed _ key => bool_decide (key = lit "Enter")
  | _ => false
  end.

Definition attempts (evs : list Event) : nat :=
  length (filter (λ e, isAttempt e = true) evs).

(** The page right after the submission that added the 160th row, as
    reached from a table of 159 rows: the drafts are empty and the add
    control is disabled. *)
Definition limitPage : Page :=
  run [Typed NameField (lit "Dr. Sen");
       Typed NumberField (lit "987 654 3210");
       Typed AreaField (lit "Neurology");
       AddClicked]
      (initialize (withRows (replicate 159 sampleRow) blankPage)).

(** ** Lemmas on strings *)

Lemma replaceClassGlobal_filter cls s :
  replaceClassGlobal cls [] s = filter (λ c, cls c = false) s.
Proof.
  induction s as [|c r IH]; [reflexivity|].
  cbn [replaceClassGlobal]. rewrite filter_cons.
  destruct (cls c) eqn:E; cbn [app].
  - rewrite decide_False by discriminate. exact IH.
  - rewrite decide_True by reflexivity. now f_equal.
Qed.

Lemma matchRepeat_Some cls n s t :
  matchRepeat cls n s = Some t ↔
  ∃ d, s = d ++ t ∧ length d = n ∧ Forall (λ c, cls c = true) d.
Proof.
  revert s. induction n as [|n IH]; intros s; cbn [matchRepeat].
  - split.
    + intros [= ->]. exists []. repeat split; constructor.
    + intros (d & -> & Hl & _). destruct d; [reflexivity|discriminate].
  - destruct s as [|c r].
    + split; [discriminate|].
      intros (d & Hs & Hl & _). destruct d; discriminate.
    + destruct (cls c) eqn:E.
      * rewrite IH. split.
        -- intros (d & -> & Hl & Hd). exists (c :: d).
           repeat split; [cbn; lia | now constructor].
        -- intros (d & Hs & Hl & Hd). destruct d as [|c' d]; [discriminate|].
           injection Hs as -> ->. inversion Hd; subst.
           exists d. repeat split; [cbn in Hl; lia | assumption].
      * split; [discriminate|].
        intros (d & Hs & Hl & Hd). destruct d as [|c' d]; [discriminate|].
        injection Hs as -> ->. inversion Hd; subst. congruence.
Qed.

Lemma testAnchoredRepeat_spec cls n s :
  testAnchoredRepeat cls n s = true ↔
  length s = n ∧ Forall (λ c, cls c = true) s.
Proof.
  unfold testAnchoredRepeat.
  destruct (matchRepeat cls n s) as [t|] eqn:E.
  - apply matchRepeat_Some in E as (d & -> & Hl & Hd).
    destruct t as [|c t].
    + rewrite app_nil_r. tauto.
    + split; [discriminate|]. intros [Hlen _].
      rewrite length_app in Hlen. cbn in Hlen. lia.
  - split; [discriminate|]. intros [Hl Hd].
    assert (matchRepeat cls n s = Some []) as Hm; [|congruence].
    apply matchRepeat_Some. exists s. now rewrite app_nil_r.
Qed.

Lemma isSeparator_false c : isSeparator c = false ↔ ¬ spec_stripped c.
Proof.
  unfold isSeparator, spec_stripped.
  rewrite !orb_false_iff, !N.eqb_neq.
  destruct (isSpace c); intuition congruence.
Qed.

Lemma spec_cleaned_filter s :
  spec_cleaned s = filter (λ c, isSeparator c = false) s.
Proof.
  unfold spec_cleaned. apply list_filter_iff.
  intros c. symmetry. apply isSeparator_false.
Qed.

(** C1: for every string, [isValidPhoneNumber] answers true exactly when
    the string with every whitespace, hyphen and parenthesis code unit
    removed is ten decimal digits long and made of decimal digits only;
    the five sample numbers of the specification get the stated answers. *)
Theorem C1_isValidPhoneNumber_iff :
  (∀ s : jsstring, isValidPhoneNumber s = true ↔ spec_validPhone s)
  ∧ isValidPhoneNumber (lit "123-456-7890") = true
  ∧ isValidPhoneNumber (lit "(123) 456-7890") = true
  ∧ isValidPhoneNumber (lit "12345") = false
  ∧ isValidPhoneNumber (lit "12345678901") = false
  ∧ isValidPhoneNumber (lit "123-abc-7890") = false.
Proof.
  split; [|repeat split; vm_compute; reflexivity].
  intros s. unfold isValidPhoneNumber, spec_validPhone.
  rewrite replaceClassGlobal_filter, <- spec_cleaned_filter.
  apply testAnchoredRepeat_spec.
Qed.

(** ** Lemmas on the handlers *)

Lemma handleAddRow_unfold p :
  handleAddRow p =
    if missingField p then alert MSG_FILL p
    else if invalidPhone p then alert MSG_PHONE p
    else if (length (tableBody p) <? MAX_ROWS)%nat then
      updateRowCount
        (setInputs [] [] []
           (appendChild (createNewRow (trim (nameInput p))
                                      (trim (numberInput p))
                                      (trim (areaInput p))) p))
    else p.
Proof. reflexivity. Qed.

Lemma updateRowCount_tableBody p : tableBody (updateRowCount p) = tableBody p.
Proof. unfold updateRowCount. now destruct (_ <=? _)%nat. Qed.

Lemma updateRowCount_inputs p :
  nameInput (updateRowCount p) = nameInput p
  ∧ numberInput (updateRowCount p) = numberInput p
  ∧ areaInput (updateRowCount p) = areaInput p.
Proof. unfold updateRowCount. now destruct (_ <=? _)%nat. Qed.

Lemma updateRowCount_alerts p : alerts (updateRowCount p) = alerts p.
Proof. unfold updateRowCount. now destruct (_ <=? _)%nat. Qed.

(** The table after [handleAddRow]: one row more exactly when all three
    checks pass, the same table otherwise. *)
Lemma handleAddRow_tableBody p :
  tableBody (handleAddRow p) =
    if negb (missingField p) && negb (invalidPhone p)
       && (length (tableBody p) <? MAX_ROWS)%nat
    then tableBody p ++ [createNewRow (trim (nameInput p))
                                      (trim (numberInput p))
                                      (trim (areaInput p))]
    else tableBody p.
Proof.
  rewrite handleAddRow_unfold.
  destruct (missingField p); [reflexivity|].
  destruct (invalidPhone p); [reflexivity|].
  destruct (_ <? _)%nat; [|reflexivity].
  now rewrite updateRowCount_tableBody.
Qed.

Lemma handleAddRow_length p :
  length (tableBody (handleAddRow p)) =
    if negb (missingField p) && negb (invalidPhone p)
       && (length (tableBody p) <? MAX_ROWS)%nat
    then S (length (tableBody p))
    else length (tableBody p).
Proof.
  rewrite handleAddRow_tableBody.
  destruct (_ && _); [|reflexivity].
  rewrite length_app. cbn. lia.
Qed.

Lemma typeInto_tableBody f v p : tableBody (typeInto f v p) = tableBody p.
Proof. now destruct f. Qed.

Lemma onCheckClick_length i p :
  length (tableBody (onCheckClick i p)) = length (tableBody p).
Proof. cbn. apply length_alter. Qed.

Lemma onInputKeypress_Enter f p :
  onInputKeypress f (lit "Enter") p = handleAddRow p.
Proof. reflexivity. Qed.

(** A handler never takes the table over the limit. *)
Lemma dispatch_bounded e p :
  (length (tableBody p) ≤ MAX_ROWS)%nat →
  (length (tableBody (dispatch e p)) ≤ MAX_ROWS)%nat.
Proof.
  intros Hb.
  assert (length (tableBody (handleAddRow p)) ≤ MAX_ROWS)%nat as Hadd.
  { rewrite handleAddRow_length.
    destruct (negb _ && negb _); cbn [andb]; [|exact Hb].
    destruct (Nat.ltb_spec (length (tableBody p)) MAX_ROWS); lia. }
  destruct e as [f v| |f key|i]; cbn [dispatch].
  - now rewrite typeInto_tableBody.
  - unfold onAddRowClick. destruct (addRowButtonDisabled p);
      [first [assumption|reflexivity]|exact Hadd].
  - unfold onInputKeypress. now destruct (bool_decide _).
  - now rewrite onCheckClick_length.
Qed.

Lemma reached_bounded evs : ∀ p,
  (length (tableBody p) ≤ MAX_ROWS)%nat →
  Forall (λ q, (length (tableBody q) ≤ MAX_ROWS)%nat) (reached evs p).
Proof.
  induction evs as [|e rest IH]; intros p Hb; cbn [reached].
  - now constructor.
  - constructor; [exact Hb|]. apply IH. now apply dispatch_bounded.
Qed.

Lemma submit_length x p :
  length (tableBody (submit x p)) =
    if validInput x && (length (tableBody p) <? MAX_ROWS)%nat
    then S (length (tableBody p))
    else length (tableBody p).
Proof.
  destruct x as [[n num] a]. cbn [submit run dispatch].
  rewrite onInputKeypress_Enter, handleAddRow_length.
  unfold missingField, invalidPhone, validInput.
  cbn [typeInto setInputs tableBody nameInput numberInput areaInput].
  destruct (truthy (trim n)), (truthy (trim num)), (truthy (trim a)),
    (isValidPhoneNumber (trim num)); reflexivity.
Qed.

Lemma submitAll_length xs : ∀ p,
  Forall (λ x, validInput x = true) xs →
  (length (tableBody p) ≤ MAX_ROWS)%nat →
  length (tableBody (submitAll xs p)) =
    Nat.min (length (tableBody p) + length xs) MAX_ROWS.
Proof.
  induction xs as [|x xs IH]; intros p Hv Hb; cbn [submitAll fold_left].
  - cbn [length]. lia.
  - inversion Hv as [|? ? Hx Hxs]; subst.
    fold (submitAll xs (submit x p)).
    pose proof (submit_length x p) as Hl. rewrite Hx in Hl. cbn [andb] in Hl.
    destruct (Nat.ltb_spec (length (tableBody p)) MAX_ROWS).
    + rewrite IH by (assumption || lia). rewrite Hl. cbn [length]. lia.
    + rewrite IH by (assumption || lia). rewrite Hl. cbn [length]. lia.
Qed.

(** C2: from a table of at most 160 rows, every page reached by any
    sequence of events keeps at most 160 rows; [handleAddRow] changes the
    table only when it holds fewer than 160 rows; valid submissions fill
    the table up to 160 and no further, and once 160 rows are in place
    one more submission leaves the table as it is. *)
Theorem C2_row_count_never_exceeds_max
  (p : Page) (evs : list Event)
  (xs : list (jsstring * jsstring * jsstring))
  (x : jsstring * jsstring * jsstring) :
  (length (tableBody p) ≤ MAX_ROWS)%nat →
  Forall (λ y, validInput y = true) xs →
  MAX_ROWS = 160%nat
  ∧ Forall (λ q, (length (tableBody q) ≤ MAX_ROWS)%nat) (reached evs p)
  ∧ (tableBody (handleAddRow p) = tableBody p
     ∨ (length (tableBody p) < MAX_ROWS)%nat)
  ∧ length (tableBody (submitAll xs p)) =
      Nat.min (length (tableBody p) + length xs) MAX_ROWS
  ∧ ((length (tableBody p) + length xs < MAX_ROWS)%nat
     ∨ tableBody (submit x (submitAll xs p)) = tableBody (submitAll xs p)).
Proof.
  intros Hb Hv. split; [reflexivity|].
  split; [now apply reached_bounded|].
  split.
  { rewrite handleAddRow_tableBody.
    destruct (negb _ && negb _); cbn [andb]; [|now left].
    destruct (Nat.ltb_spec (length (tableBody p)) MAX_ROWS);
      [now right|now left]. }
  pose proof (submitAll_length xs p Hv Hb) as Hlen.
  split; [exact Hlen|].
  destruct (Nat.lt_ge_cases (length (tableBody p) + length xs) MAX_ROWS)
    as [Hlt|Hge]; [now left|right].
  destruct x as [[n num] a]. cbn [submit run dispatch].
  rewrite onInputKeypress_Enter, handleAddRow_tableBody.
  cbn [typeInto setInputs tableBody].
  replace (length (tableBody (submitAll xs p)) <? MAX_ROWS)%nat with false.
  - now rewrite andb_false_r.
  - symmetry. apply Nat.ltb_ge. lia.
Qed.

Lemma C2_row_count_never_exceeds_max_witness :
  (length (tableBody blankPage) ≤ MAX_ROWS)%nat
  ∧ Forall (λ y, validInput y = true) (replicate 160 validDraft)
  ∧ MAX_ROWS = 160%nat
  ∧ Forall (λ q, (length (tableBody q) ≤ MAX_ROWS)%nat)
           (reached [AddClicked; CheckClicked 0] blankPage)
  ∧ (tableBody (handleAddRow blankPage) = tableBody blankPage
     ∨ (length (tableBody blankPage) < MAX_ROWS)%nat)
  ∧ length (tableBody (submitAll (replicate 160 validDraft) blankPage)) =
      Nat.min (length (tableBody blankPage)
               + length (replicate 160 validDraft)) MAX_ROWS
  ∧ ((length (tableBody blankPage)
      + length (replicate 160 validDraft) < MAX_ROWS)%nat
     ∨ tableBody (submit validDraft
                    (submitAll (replicate 160 validDraft) blankPage))
       = tableBody (submitAll (replicate 160 validDraft) blankPage)).
Proof.
  assert (length (tableBody blankPage) ≤ MAX_ROWS)%nat as H1
    by (vm_compute; lia).
  assert (Forall (λ y, validInput y = true) (replicate 160 validDraft)) as H2
    by (apply Forall_replicate; vm_compute; reflexivity).
  split; [exact H1|]. split; [exact H2|].
  exact (C2_row_count_never_exceeds_max
           blankPage [AddClicked; CheckClicked 0]
           (replicate 160 validDraft) validDraft H1 H2).
Defined.

(** ** Trimming *)

Lemma truthy_true s : truthy s = true ↔ s ≠ [].
Proof. destruct s; cbn; split; congruence. Qed.

Lemma truthy_false s : truthy s = false ↔ s = [].
Proof. destruct s; cbn; split; congruence. Qed.

Lemma trimStart_nil s :
  trimStart s = [] ↔ Forall (λ c, isSpace c = true) s.
Proof.
  induction s as [|c r IH]; cbn [trimStart].
  - split; [constructor|reflexivity].
  - destruct (isSpace c) eqn:E.
    + rewrite IH. split; [now constructor|now inversion 1].
    + split; [discriminate|]. inversion 1; congruence.
Qed.

(** What is left of a string once trimmed at the start is empty or
    begins with a code unit that is not whitespace. *)
Lemma trimStart_head s :
  trimStart s = [] ∨ ∃ c r, trimStart s = c :: r ∧ isSpace c = false.
Proof.
  induction s as [|c r IH]; cbn [trimStart]; [now left|].
  destruct (isSpace c) eqn:E; [exact IH|right; eauto].
Qed.

(** A field is empty after trimming exactly when it is empty or made of
    whitespace only. *)
Lemma trim_nil s : trim s = [] ↔ Forall (λ c, isSpace c = true) s.
Proof.
  unfold trim, trimEnd. split.
  - intros H. apply (f_equal reverse) in H.
    rewrite reverse_involutive, reverse_nil in H.
    apply trimStart_nil in H. rewrite Forall_reverse in H.
    destruct (trimStart_head s) as [Hn|(c & r & Hs & Hc)].
    + now apply trimStart_nil.
    + rewrite Hs in H. inversion H; congruence.
  - intros H. apply trimStart_nil in H. now rewrite H.
Qed.

Lemma noOuterSpace_trim s : noOuterSpace s = true → trim s = s.
Proof.
  unfold noOuterSpace, trim, trimEnd.
  destruct s as [|c r]; [reflexivity|].
  destruct (reverse (c :: r)) as [|d t] eqn:Er.
  - apply (f_equal length) in Er. rewrite length_reverse in Er. discriminate.
  - intros [Hc Hd]%andb_prop. apply negb_true_iff in Hc, Hd.
    cbn [trimStart]. rewrite Hc, Er. cbn [trimStart]. rewrite Hd.
    rewrite <- Er. apply reverse_involutive.
Qed.

Lemma isSpace_isSeparator c : isSpace c = true → isSeparator c = true.
Proof. unfold isSeparator. now intros ->. Qed.

Lemma cleaned_trimStart s :
  replaceClassGlobal isSeparator [] (trimStart s)
  = replaceClassGlobal isSeparator [] s.
Proof.
  induction s as [|c r IH]; [reflexivity|]. cbn [trimStart].
  destruct (isSpace c) eqn:E; [|reflexivity].
  rewrite IH. cbn [replaceClassGlobal].
  now rewrite (isSpace_isSeparator c E).
Qed.

Lemma cleaned_reverse s :
  replaceClassGlobal isSeparator [] (reverse s)
  = reverse (replaceClassGlobal isSeparator [] s).
Proof. rewrite !replaceClassGlobal_filter. apply filter_reverse. Qed.

Lemma cleaned_trim s :
  replaceClassGlobal isSeparator [] (trim s)
  = replaceClassGlobal isSeparator [] s.
Proof.
  unfold trim, trimEnd.
  rewrite cleaned_reverse, cleaned_trimStart, cleaned_reverse.
  rewrite reverse_involutive. apply cleaned_trimStart.
Qed.

(** Trimming a number first does not change the verdict: the class the
    validator strips contains every code unit [trim] removes. *)
Lemma isValidPhoneNumber_trim s :
  isValidPhoneNumber (trim s) = isValidPhoneNumber s.
Proof. unfold isValidPhoneNumber. now rewrite cleaned_trim. Qed.

Lemma missingField_false p :
  missingField p = false ↔
  trim (nameInput p) ≠ [] ∧ trim (numberInput p) ≠ []
  ∧ trim (areaInput p) ≠ [].
Proof.
  unfold missingField. rewrite <- !truthy_true.
  destruct (truthy (trim (nameInput p))), (truthy (trim (numberInput p))),
    (truthy (trim (areaInput p))); cbn; intuition congruence.
Qed.

Lemma missingField_true p :
  missingField p = true ↔
  trim (nameInput p) = [] ∨ trim (numberInput p) = []
  ∨ trim (areaInput p) = [].
Proof.
  unfold missingField. rewrite <- !truthy_false.
  destruct (truthy (trim (nameInput p))), (truthy (trim (numberInput p))),
    (truthy (trim (areaInput p))); cbn; intuition congruence.
Qed.

Lemma MSG_FILL_neq_MSG_PHONE : MSG_FILL ≠ MSG_PHONE.
Proof. vm_compute. discriminate. Qed.

(** ** The submission flow *)

(** C3: with fewer than 160 rows in the table, three drafts that are
    non-empty once trimmed and a trimmed number that passes
    [isValidPhoneNumber], [handleAddRow] raises no notice, appends
    exactly one row (built from the trimmed drafts), so the row count
    grows by one, and leaves the three inputs empty. *)
Theorem C3_valid_submission_adds_one_row (p : Page) :
  (length (tableBody p) < MAX_ROWS)%nat →
  trim (nameInput p) ≠ [] →
  trim (numberInput p) ≠ [] →
  trim (areaInput p) ≠ [] →
  isValidPhoneNumber (trim (numberInput p)) = true →
  alerts (handleAddRow p) = alerts p
  ∧ tableBody (handleAddRow p) =
      tableBody p ++ [createNewRow (trim (nameInput p))
                                   (trim (numberInput p))
                                   (trim (areaInput p))]
  ∧ length (tableBody (handleAddRow p)) = S (length (tableBody p))
  ∧ nameInput (handleAddRow p) = []
  ∧ numberInput (handleAddRow p) = []
  ∧ areaInput (handleAddRow p) = []
  ∧ rowCountSpan (handleAddRow p) =
      numberToString (S (length (tableBody p))).
Proof.
  intros Hlt Hn Hnum Ha Hv.
  assert (missingField p = false) as Hm by now apply missingField_false.
  assert (invalidPhone p = false) as Hi
    by (unfold invalidPhone; now rewrite Hv).
  assert ((length (tableBody p) <? MAX_ROWS)%nat = true) as Hc
    by now apply Nat.ltb_lt.
  rewrite handleAddRow_length, handleAddRow_tableBody.
  rewrite handleAddRow_unfold, Hm, Hi, Hc. cbn [negb andb].
  rewrite updateRowCount_alerts.
  destruct (updateRowCount_inputs
              (setInputs [] [] []
                 (appendChild (createNewRow (trim (nameInput p))
                                 (trim (numberInput p))
                                 (trim (areaInput p))) p)))
    as (-> & -> & ->).
  repeat split.
  unfold updateRowCount. cbn [setInputs appendChild tableBody].
  rewrite length_app. cbn [length]. rewrite Nat.add_1_r.
  now destruct (_ <=? _)%nat.
Qed.

Lemma C3_valid_submission_adds_one_row_witness :
  let p := draftPage (lit "Dr. Rao") (lit "(123) 456-7890") (lit " Cardiology ") in
  (length (tableBody p) < MAX_ROWS)%nat
  ∧ trim (nameInput p) ≠ []
  ∧ trim (numberInput p) ≠ []
  ∧ trim (areaInput p) ≠ []
  ∧ isValidPhoneNumber (trim (numberInput p)) = true
  ∧ alerts (handleAddRow p) = alerts p
  ∧ length (tableBody (handleAddRow p)) = S (length (tableBody p))
  ∧ nameInput (handleAddRow p) = []
  ∧ numberInput (handleAddRow p) = []
  ∧ areaInput (handleAddRow p) = [].
Proof.
  intros p.
  assert (length (tableBody p) < MAX_ROWS)%nat as H1 by (vm_compute; lia).
  assert (trim (nameInput p) ≠ []) as H2 by (vm_compute; discriminate).
  assert (trim (numberInput p) ≠ []) as H3 by (vm_compute; discriminate).
  assert (trim (areaInput p) ≠ []) as H4 by (vm_compute; discriminate).
  assert (isValidPhoneNumber (trim (numberInput p)) = true) as H5
    by (vm_compute; reflexivity).
  destruct (C3_valid_submission_adds_one_row p H1 H2 H3 H4 H5)
    as (Ea & _ & El & En & Enum & Ear & _).
  repeat split; assumption.
Defined.

(** C4: when some draft is empty once trimmed, or the trimmed number
    does not pass [isValidPhoneNumber], [handleAddRow] raises one notice
    and does nothing else: the fill-in notice for a missing field, the
    phone-format notice otherwise; the table, the row count and the three
    drafts stay as they were. *)
Theorem C4_failed_validation_aborts (p : Page) :
  trim (nameInput p) = [] ∨ trim (numberInput p) = []
  ∨ trim (areaInput p) = []
  ∨ isValidPhoneNumber (trim (numberInput p)) = false →
  handleAddRow p = alert (if missingField p then MSG_FILL else MSG_PHONE) p
  ∧ alerts (handleAddRow p) =
      alerts p ++ [if missingField p then MSG_FILL else MSG_PHONE]
  ∧ tableBody (handleAddRow p) = tableBody p
  ∧ length (tableBody (handleAddRow p)) = length (tableBody p)
  ∧ nameInput (handleAddRow p) = nameInput p
  ∧ numberInput (handleAddRow p) = numberInput p
  ∧ areaInput (handleAddRow p) = areaInput p.
Proof.
  intros H.
  assert (handleAddRow p
          = alert (if missingField p then MSG_FILL else MSG_PHONE) p) as E.
  { rewrite handleAddRow_unfold.
    destruct (missingField p) eqn:Hm; [reflexivity|].
    apply missingField_false in Hm as (Hn & Hnum & Ha).
    destruct H as [H|[H|[H|H]]]; try contradiction.
    unfold invalidPhone. now rewrite H. }
  rewrite E. repeat split.
Qed.

Lemma C4_failed_validation_aborts_witness :
  let p := draftPage (lit "   ") (lit "123-abc-7890") (lit "Cardiology") in
  (trim (nameInput p) = [] ∨ trim (numberInput p) = []
   ∨ trim (areaInput p) = []
   ∨ isValidPhoneNumber (trim (numberInput p)) = false)
  ∧ alerts (handleAddRow p) =
      alerts p ++ [if missingField p then MSG_FILL else MSG_PHONE]
  ∧ tableBody (handleAddRow p) = tableBody p
  ∧ nameInput (handleAddRow p) = nameInput p
  ∧ numberInput (handleAddRow p) = numberInput p
  ∧ areaInput (handleAddRow p) = areaInput p.
Proof.
  intros p.
  assert (trim (nameInput p) = [] ∨ trim (numberInput p) = []
          ∨ trim (areaInput p) = []
          ∨ isValidPhoneNumber (trim (numberInput p)) = false) as H
    by (left; vm_compute; reflexivity).
  destruct (C4_failed_validation_aborts p H)
    as (_ & Ea & Et & _ & En & Enum & Ear).
  repeat split; assumption.
Defined.

(** C6: the checks run in the order missing field, phone number,
    capacity.  When a trimmed draft is empty and the number is invalid
    too, the notice raised is the fill-in notice, which is not the
    phone-format notice; and whenever a validation fails the outcome is
    the same whatever rows the table holds, so the row count is only
    consulted once both validations have passed. *)
Theorem C6_checks_in_order (p : Page) (rows : list Row) :
  missingField p = true →
  invalidPhone p = true →
  handleAddRow p = alert MSG_FILL p
  ∧ alerts (handleAddRow p) = alerts p ++ [MSG_FILL]
  ∧ MSG_FILL ≠ MSG_PHONE
  ∧ handleAddRow (withRows rows p) = withRows rows (handleAddRow p)
  ∧ (∀ q : Page,
       handleAddRow (withRows rows q) = withRows rows (handleAddRow q)
       ∨ (missingField q = false ∧ invalidPhone q = false)).
Proof.
  intros Hm Hi.
  assert (∀ q, missingField (withRows rows q) = missingField q) as Em
    by reflexivity.
  assert (∀ q, invalidPhone (withRows rows q) = invalidPhone q) as Ei
    by reflexivity.
  split; [rewrite handleAddRow_unfold; now rewrite Hm|].
  split; [rewrite handleAddRow_unfold; now rewrite Hm|].
  split; [exact MSG_FILL_neq_MSG_PHONE|].
  split.
  - rewrite !handleAddRow_unfold, Em, Hm. reflexivity.
  - intros q. rewrite !handleAddRow_unfold, Em, Ei.
    destruct (missingField q); [now left|].
    destruct (invalidPhone q); [now left|now right].
Qed.

Lemma C6_checks_in_order_witness :
  let p := withRows (replicate MAX_ROWS sampleRow)
             (draftPage (lit "Dr. Rao") (lit "12345") (lit " ")) in
  missingField p = true
  ∧ invalidPhone p = true
  ∧ alerts (handleAddRow p) = alerts p ++ [MSG_FILL]
  ∧ MSG_FILL ≠ MSG_PHONE
  ∧ handleAddRow (withRows [] p) = withRows [] (handleAddRow p).
Proof.
  intros p.
  assert (missingField p = true) as H1 by (vm_compute; reflexivity).
  assert (invalidPhone p = true) as H2 by (vm_compute; reflexivity).
  destruct (C6_checks_in_order p [] H1 H2) as (_ & Ea & En & Ew & _).
  repeat split; assumption.
Defined.

(** C10: with 160 rows or more in the table and a draft that passes both
    validations, [handleAddRow] gives back the page it was given: no
    notice, no new row, the drafts as typed, and the counter text, the
    limit marker and the add button as they were, hence not refreshed
    where they were out of date. *)
Theorem C10_at_capacity_no_effect (p : Page) :
  (MAX_ROWS ≤ length (tableBody p))%nat →
  missingField p = false →
  isValidPhoneNumber (trim (numberInput p)) = true →
  handleAddRow p = p
  ∧ alerts (handleAddRow p) = alerts p
  ∧ tableBody (handleAddRow p) = tableBody p
  ∧ nameInput (handleAddRow p) = nameInput p
  ∧ numberInput (handleAddRow p) = numberInput p
  ∧ areaInput (handleAddRow p) = areaInput p
  ∧ rowCountSpan (handleAddRow p) = rowCountSpan p
  ∧ limitMessage (handleAddRow p) = limitMessage p
  ∧ addRowButtonDisabled (handleAddRow p) = addRowButtonDisabled p
  ∧ addRowButtonText (handleAddRow p) = addRowButtonText p
  ∧ (updateRowCount p = p ∨ handleAddRow p ≠ updateRowCount p).
Proof.
  intros Hge Hm Hv.
  assert (handleAddRow p = p) as E.
  { rewrite handleAddRow_unfold, Hm. unfold invalidPhone. rewrite Hv.
    cbn [negb]. now rewrite (proj2 (Nat.ltb_ge _ _) Hge). }
  rewrite E. repeat split.
  destruct (decide (rowCountSpan (updateRowCount p) = rowCountSpan p
                    ∧ limitMessage (updateRowCount p) = limitMessage p
                    ∧ addRowButtonDisabled (updateRowCount p)
                      = addRowButtonDisabled p
                    ∧ addRowButtonText (updateRowCount p)
                      = addRowButtonText p)) as [(E1 & E2 & E3 & E4)|Hne].
  - left. destruct p as [tb ni nu ar rc lm bd bt al].
    unfold updateRowCount in *. cbn [tableBody nameInput numberInput
      areaInput alerts rowCountSpan limitMessage addRowButtonDisabled
      addRowButtonText] in *.
    destruct (MAX_ROWS <=? length tb)%nat;
      cbn [rowCountSpan limitMessage addRowButtonDisabled
           addRowButtonText] in *; congruence.
  - right. intros Heq. apply Hne. now rewrite <- Heq.
Qed.

Lemma C10_at_capacity_no_effect_witness :
  (MAX_ROWS ≤ length (tableBody fullStalePage))%nat
  ∧ missingField fullStalePage = false
  ∧ isValidPhoneNumber (trim (numberInput fullStalePage)) = true
  ∧ handleAddRow fullStalePage = fullStalePage
  ∧ rowCountSpan (handleAddRow fullStalePage) = lit "159"
  ∧ addRowButtonDisabled (handleAddRow fullStalePage) = false
  ∧ handleAddRow fullStalePage ≠ updateRowCount fullStalePage.
Proof.
  assert (MAX_ROWS ≤ length (tableBody fullStalePage))%nat as H1
    by (vm_compute; lia).
  assert (missingField fullStalePage = false) as H2
    by (vm_compute; reflexivity).
  assert (isValidPhoneNumber (trim (numberInput fullStalePage)) = true) as H3
    by (vm_compute; reflexivity).
  destruct (C10_at_capacity_no_effect fullStalePage H1 H2 H3)
    as (E & _ & _ & _ & _ & _ & Erc & _ & Ebd & _ & [Eu|Hne]).
  - exfalso. apply (f_equal addRowButtonDisabled) in Eu.
    vm_compute in Eu. discriminate.
  - repeat split; try assumption.
Defined.

(** ** The done-toggle *)

(** On a freshly created row one toggle flips the button to the checked
    class and glyph and dims the row. *)
Lemma toggleCheck_fresh name number area :
  toggleCheck (createNewRow name number area) =
    mkRow (mkCell name (Some (lit "Doctor's Name")))
          (mkCell number (Some (lit "Doctor's Number")))
          (mkCell area (Some (lit "Area")))
          (Some (lit "Done"))
          (mkButton [lit "check-button"; lit "checked"] CHECKED_GLYPH)
          (lit "0.6").
Proof. reflexivity. Qed.

Lemma toggleCheck_cells r :
  nameCell (toggleCheck r) = nameCell r
  ∧ numberCell (toggleCheck r) = numberCell r
  ∧ areaCell (toggleCheck r) = areaCell r
  ∧ buttonCellLabel (toggleCheck r) = buttonCellLabel r.
Proof. unfold toggleCheck. now destruct (contains _ _). Qed.

(** C5, as the code has it: two toggles on a freshly created row bring
    the button back to its original class list and to the glyph of the
    unchecked state, and keep the cells; the inline opacity of the row,
    unset on a fresh row, is 0.6 after the first toggle and 1 after the
    second, and from there on two toggles restore the row exactly. *)
Theorem C5_toggle_twice_fresh_row (name number area : jsstring) :
  checkButton (toggleCheck (toggleCheck (createNewRow name number area)))
    = checkButton (createNewRow name number area)
  ∧ classList (checkButton (createNewRow name number area))
    = [lit "check-button"; lit "unchecked"]
  ∧ buttonText (checkButton (createNewRow name number area)) = UNCHECKED_GLYPH
  ∧ nameCell (toggleCheck (toggleCheck (createNewRow name number area)))
    = nameCell (createNewRow name number area)
  ∧ numberCell (toggleCheck (toggleCheck (createNewRow name number area)))
    = numberCell (createNewRow name number area)
  ∧ areaCell (toggleCheck (toggleCheck (createNewRow name number area)))
    = areaCell (createNewRow name number area)
  ∧ styleOpacity (createNewRow name number area) = []
  ∧ styleOpacity (toggleCheck (createNewRow name number area)) = lit "0.6"
  ∧ styleOpacity (toggleCheck (toggleCheck (createNewRow name number area)))
    = lit "1"
  ∧ toggleCheck (toggleCheck
      (toggleCheck (toggleCheck (createNewRow name number area))))
    = toggleCheck (toggleCheck (createNewRow name number area)).
Proof. repeat split. Qed.

(** The claim of C5 as written fails on the sample row: the row after two
    toggles differs from the fresh row in its inline opacity. *)
Lemma C5_toggle_twice_not_identity :
  styleOpacity sampleRow = []
  ∧ styleOpacity (toggleCheck (toggleCheck sampleRow)) = lit "1"
  ∧ styleOpacity (toggleCheck (toggleCheck sampleRow)) ≠ styleOpacity sampleRow
  ∧ toggleCheck (toggleCheck sampleRow) ≠ sampleRow.
Proof.
  split; [reflexivity|]. split; [reflexivity|].
  split; [vm_compute; discriminate|].
  intros H. apply (f_equal styleOpacity) in H. vm_compute in H. discriminate.
Qed.

(** ** What a new row stores *)

Lemma handleAddRow_success p :
  length (tableBody (handleAddRow p)) = S (length (tableBody p)) →
  missingField p = false ∧ invalidPhone p = false
  ∧ (length (tableBody p) <? MAX_ROWS)%nat = true.
Proof.
  rewrite handleAddRow_length.
  destruct (missingField p), (invalidPhone p), (_ <? _)%nat;
    cbn [negb andb]; intros H; try lia; repeat split.
Qed.

(** C8, as the code has it: after a successful submission the second
    cell of the new row holds the typed number with leading and trailing
    whitespace trimmed and nothing else changed, so separators inside
    the number are kept; it is the typed text itself when that text has
    no whitespace at either end. *)
Theorem C8_stored_number_is_trimmed_text (p : Page) :
  length (tableBody (handleAddRow p)) = S (length (tableBody p)) →
  last (tableBody (handleAddRow p))
    = Some (createNewRow (trim (nameInput p)) (trim (numberInput p))
                         (trim (areaInput p)))
  ∧ (textContent <$> (numberCell <$> last (tableBody (handleAddRow p))))
    = Some (trim (numberInput p))
  ∧ (noOuterSpace (numberInput p) = false
     ∨ (textContent <$> (numberCell <$> last (tableBody (handleAddRow p))))
       = Some (numberInput p))
  ∧ isValidPhoneNumber (trim (numberInput p)) = true
  ∧ isValidPhoneNumber (numberInput p) = true.
Proof.
  intros Hs. apply handleAddRow_success in Hs as (Hm & Hi & Hc).
  rewrite handleAddRow_tableBody, Hm, Hi, Hc. cbn [negb andb].
  rewrite last_snoc. cbn [fmap option_fmap option_map numberCell
    createNewRow textContent].
  assert (isValidPhoneNumber (trim (numberInput p)) = true) as Hv
    by (unfold invalidPhone in Hi; now apply negb_false_iff in Hi).
  repeat split.
  - destruct (noOuterSpace (numberInput p)) eqn:E; [right|now left].
    now rewrite noOuterSpace_trim.
  - exact Hv.
  - now rewrite <- isValidPhoneNumber_trim.
Qed.

Lemma C8_stored_number_is_trimmed_text_witness :
  let p := draftPage (lit "Dr. Rao") (lit "  (123) 456-7890 ") (lit "Cardiology") in
  length (tableBody (handleAddRow p)) = S (length (tableBody p))
  ∧ (textContent <$> (numberCell <$> last (tableBody (handleAddRow p))))
    = Some (lit "(123) 456-7890").
Proof.
  intros p.
  assert (length (tableBody (handleAddRow p)) = S (length (tableBody p)))
    as H by (vm_compute; reflexivity).
  destruct (C8_stored_number_is_trimmed_text p H) as (_ & E & _).
  split; [exact H|]. rewrite E. vm_compute. reflexivity.
Defined.

(** The claim of C8 as written fails when the user types a space before
    the number: the submission succeeds and the stored text is not the
    typed text. *)
Lemma C8_stored_number_not_exact_text :
  let p := draftPage (lit "Dr. Rao") (lit " 1234567890") (lit "Cardiology") in
  numberInput p = lit " 1234567890"
  ∧ length (tableBody (handleAddRow p)) = S (length (tableBody p))
  ∧ alerts (handleAddRow p) = alerts p
  ∧ (textContent <$> (numberCell <$> last (tableBody (handleAddRow p))))
    = Some (lit "1234567890")
  ∧ (textContent <$> (numberCell <$> last (tableBody (handleAddRow p))))
    ≠ Some (numberInput p).
Proof. repeat split; vm_compute; discriminate. Qed.

(** ** Class lists *)

Lemma contains_true tok cl : contains tok cl = true ↔ tok ∈ cl.
Proof. apply bool_decide_eq_true. Qed.

Lemma contains_false tok cl : contains tok cl = false ↔ tok ∉ cl.
Proof. apply bool_decide_eq_false. Qed.

Lemma contains_add t tok cl :
  contains t (add tok cl) = bool_decide (t = tok) || contains t cl.
Proof.
  unfold add. destruct (contains tok cl) eqn:E.
  - destruct (bool_decide (t = tok)) eqn:Et; [|reflexivity].
    apply bool_decide_eq_true in Et. subst t. now rewrite E.
  - apply eq_true_iff_eq. rewrite orb_true_iff, !contains_true.
    rewrite bool_decide_eq_true, elem_of_app, list_elem_of_singleton. tauto.
Qed.

Lemma contains_remove t tok cl :
  contains t (remove tok cl) = negb (bool_decide (t = tok)) && contains t cl.
Proof.
  apply eq_true_iff_eq.
  rewrite andb_true_iff, negb_true_iff, !contains_true.
  rewrite bool_decide_eq_false. unfold remove.
  now rewrite list_elem_of_filter.
Qed.

Lemma add_present tok cl : contains tok cl = true → add tok cl = cl.
Proof. unfold add. now intros ->. Qed.

Lemma remove_absent tok cl : contains tok cl = false → remove tok cl = cl.
Proof.
  intros H%contains_false. unfold remove.
  induction cl as [|t cl IH]; [reflexivity|].
  apply not_elem_of_cons in H as [Hne Hcl].
  rewrite filter_cons_True by congruence. f_equal. now apply IH.
Qed.

Lemma add_idem tok cl : add tok (add tok cl) = add tok cl.
Proof.
  apply add_present. rewrite contains_add.
  now rewrite bool_decide_true.
Qed.

Lemma remove_idem tok cl : remove tok (remove tok cl) = remove tok cl.
Proof.
  apply remove_absent. rewrite contains_remove.
  now rewrite bool_decide_true.
Qed.

Lemma remove_app tok cl1 cl2 :
  remove tok (cl1 ++ cl2) = remove tok cl1 ++ remove tok cl2.
Proof. apply filter_app. Qed.

(** ** The counter and the add control *)

Lemma updateRowCount_sync p : displayInSync (updateRowCount p).
Proof.
  unfold displayInSync. rewrite updateRowCount_tableBody.
  unfold updateRowCount.
  destruct (MAX_ROWS <=? length (tableBody p))%nat eqn:E;
    cbn [rowCountSpan addRowButtonDisabled addRowButtonText limitMessage];
    repeat split.
  - rewrite contains_add. now rewrite bool_decide_true.
  - rewrite contains_remove. now rewrite bool_decide_true.
Qed.

Lemma updateRowCount_idem p :
  updateRowCount (updateRowCount p) = updateRowCount p.
Proof.
  unfold updateRowCount at 1. rewrite updateRowCount_tableBody.
  unfold updateRowCount.
  destruct (MAX_ROWS <=? length (tableBody p))%nat;
    cbn [tableBody nameInput numberInput areaInput limitMessage alerts];
    f_equal; [apply add_idem | apply remove_idem].
Qed.

(** X1: [updateRowCount] writes the decimal row count into the counter
    and sets the add control from the comparison with 160 alone: at 160
    rows or more the control is disabled, reads "Limit Reached" and the
    limit marker is present, below 160 it is enabled, reads "Add
    Appointment" and the marker is absent.  The table, the drafts and the
    notices are not touched, and a second call changes nothing. *)
Theorem X1_updateRowCount_reflects_count (p : Page) :
  rowCountSpan (updateRowCount p) = numberToString (length (tableBody p))
  ∧ addRowButtonDisabled (updateRowCount p)
    = (MAX_ROWS <=? length (tableBody p))%nat
  ∧ addRowButtonText (updateRowCount p)
    = (if (MAX_ROWS <=? length (tableBody p))%nat
       then lit "Limit Reached" else lit "Add Appointment")
  ∧ contains (lit "limit-reached") (limitMessage (updateRowCount p))
    = (MAX_ROWS <=? length (tableBody p))%nat
  ∧ (∀ t, t = lit "limit-reached"
          ∨ contains t (limitMessage (updateRowCount p))
            = contains t (limitMessage p))
  ∧ tableBody (updateRowCount p) = tableBody p
  ∧ nameInput (updateRowCount p) = nameInput p
  ∧ numberInput (updateRowCount p) = numberInput p
  ∧ areaInput (updateRowCount p) = areaInput p
  ∧ alerts (updateRowCount p) = alerts p
  ∧ updateRowCount (updateRowCount p) = updateRowCount p.
Proof.
  pose proof (updateRowCount_sync p) as (H1 & H2 & H3 & H4).
  rewrite updateRowCount_tableBody in H1, H2, H3, H4.
  destruct (updateRowCount_inputs p) as (I1 & I2 & I3).
  repeat split; try assumption.
  - intros t. destruct (decide (t = lit "limit-reached")) as [Ht|Ht];
      [now left|right]. unfold updateRowCount.
    destruct (MAX_ROWS <=? length (tableBody p))%nat; cbn [limitMessage].
    + rewrite contains_add. now rewrite bool_decide_false.
    + rewrite contains_remove. now rewrite bool_decide_false.
  - apply updateRowCount_tableBody.
  - apply updateRowCount_alerts.
  - apply updateRowCount_idem.
Qed.

Lemma handleAddRow_sync p : displayInSync p → displayInSync (handleAddRow p).
Proof.
  intros H. rewrite handleAddRow_unfold.
  destruct (missingField p); [exact H|].
  destruct (invalidPhone p); [exact H|].
  destruct (_ <? _)%nat; [apply updateRowCount_sync|exact H].
Qed.

Lemma dispatch_sync e p : displayInSync p → displayInSync (dispatch e p).
Proof.
  intros H. destruct e as [f v| |f key|i]; cbn [dispatch].
  - now destruct f.
  - unfold onAddRowClick. destruct (addRowButtonDisabled p);
      [exact H|now apply handleAddRow_sync].
  - unfold onInputKeypress. destruct (bool_decide _);
      [now apply handleAddRow_sync|exact H].
  - unfold displayInSync in *. rewrite onCheckClick_length. exact H.
Qed.

Lemma run_sync evs : ∀ p, displayInSync p → displayInSync (run evs p).
Proof.
  induction evs as [|e rest IH]; intros p H; [exact H|].
  cbn [run]. apply IH. now apply dispatch_sync.
Qed.

(** X2: once the set-up has run, the display never goes out of date:
    whatever the table held before and whatever events follow, the
    counter shows the number of rows of the table, the add control is
    disabled exactly when the table holds 160 rows or more, its label
    and the limit marker say the same. *)
Theorem X2_display_always_in_sync (p0 : Page) (evs : list Event) :
  rowCountSpan (run evs (initialize p0))
    = numberToString (length (tableBody (run evs (initialize p0))))
  ∧ addRowButtonDisabled (run evs (initialize p0))
    = (MAX_ROWS <=? length (tableBody (run evs (initialize p0))))%nat
  ∧ addRowButtonText (run evs (initialize p0))
    = (if (MAX_ROWS <=? length (tableBody (run evs (initialize p0))))%nat
       then lit "Limit Reached" else lit "Add Appointment")
  ∧ contains (lit "limit-reached") (limitMessage (run evs (initialize p0)))
    = (MAX_ROWS <=? length (tableBody (run evs (initialize p0))))%nat.
Proof.
  apply (run_sync evs (initialize p0)). apply updateRowCount_sync.
Qed.

(** ** Rows are only ever added *)

Lemma rowCells_toggleCheck r : rowCells (toggleCheck r) = rowCells r.
Proof. unfold toggleCheck. now destruct (contains _ _). Qed.

Lemma rowCells_alter_toggle i (rows : list Row) :
  rowCells <$> alter toggleCheck i rows = rowCells <$> rows.
Proof.
  rewrite (list_fmap_alter rowCells toggleCheck id rows i).
  - now apply list_alter_id.
  - apply Forall_forall. intros r _. apply rowCells_toggleCheck.
Qed.

Lemma handleAddRow_rows p :
  tableBody (handleAddRow p) = tableBody p
  ∨ (tableBody (handleAddRow p)
       = tableBody p ++ [rowOf (nameInput p, numberInput p, areaInput p)]
     ∧ missingField p = false ∧ invalidPhone p = false
     ∧ (length (tableBody p) < MAX_ROWS)%nat
     ∧ alerts (handleAddRow p) = alerts p).
Proof.
  rewrite handleAddRow_tableBody, handleAddRow_unfold.
  destruct (missingField p); [now left|].
  destruct (invalidPhone p); [now left|].
  destruct (Nat.ltb_spec (length (tableBody p)) MAX_ROWS); [|now left].
  right. repeat split; try assumption. now rewrite updateRowCount_alerts.
Qed.

Lemma dispatch_cells_prefix e p :
  (rowCells <$> tableBody p) `prefix_of` (rowCells <$> tableBody (dispatch e p)).
Proof.
  assert ((rowCells <$> tableBody p)
            `prefix_of` (rowCells <$> tableBody (handleAddRow p))) as Hadd.
  { destruct (handleAddRow_rows p) as [->|(-> & _)]; [reflexivity|].
    rewrite fmap_app. now apply prefix_app_r. }
  destruct e as [f v| |f key|i]; cbn [dispatch].
  - now rewrite typeInto_tableBody.
  - unfold onAddRowClick. destruct (addRowButtonDisabled p);
      [first [assumption|reflexivity]|exact Hadd].
  - unfold onInputKeypress. now destruct (bool_decide _).
  - cbn [onCheckClick withRows tableBody]. now rewrite rowCells_alter_toggle.
Qed.

Lemma run_cells_prefix evs : ∀ p,
  (rowCells <$> tableBody p) `prefix_of` (rowCells <$> tableBody (run evs p)).
Proof.
  induction evs as [|e rest IH]; intros p; [reflexivity|].
  cbn [run]. etransitivity; [apply dispatch_cells_prefix|apply IH].
Qed.

(** X3: no event removes, reorders or rewrites a row: after any sequence
    of events, the data cells (texts and labels) of the rows that were
    in the table are still there, at the same positions, and the new
    rows come after them; in particular the row count never goes down. *)
Theorem X3_rows_are_never_removed (p : Page) (evs : list Event) :
  (rowCells <$> tableBody p) `prefix_of` (rowCells <$> tableBody (run evs p))
  ∧ (length (tableBody p) ≤ length (tableBody (run evs p)))%nat
  ∧ (∀ j, (length (tableBody p) ≤ j)%nat
          ∨ rowCells <$> (tableBody (run evs p) !! j)
            = rowCells <$> (tableBody p !! j)).
Proof.
  pose proof (run_cells_prefix evs p) as Hp.
  split; [exact Hp|]. split.
  - apply prefix_length in Hp. now rewrite !length_fmap in Hp.
  - intros j. destruct (Nat.le_gt_cases (length (tableBody p)) j) as [|Hj];
      [now left|right].
    rewrite <- !list_lookup_fmap. destruct Hp as [k ->].
    rewrite lookup_app_l; [reflexivity|]. now rewrite length_fmap.
Qed.

(** ** At the limit *)

Lemma dispatch_full e p :
  (MAX_ROWS ≤ length (tableBody p))%nat →
  length (tableBody (dispatch e p)) = length (tableBody p).
Proof.
  intros Hge.
  assert (length (tableBody (handleAddRow p)) = length (tableBody p)) as Hadd.
  { rewrite handleAddRow_length.
    rewrite (proj2 (Nat.ltb_ge _ _) Hge). now rewrite andb_false_r. }
  destruct e as [f v| |f key|i]; cbn [dispatch].
  - now rewrite typeInto_tableBody.
  - unfold onAddRowClick. destruct (addRowButtonDisabled p);
      [first [assumption|reflexivity]|exact Hadd].
  - unfold onInputKeypress. now destruct (bool_decide _).
  - apply onCheckClick_length.
Qed.

Lemma run_full evs : ∀ p,
  (MAX_ROWS ≤ length (tableBody p))%nat →
  length (tableBody (run evs p)) = length (tableBody p).
Proof.
  induction evs as [|e rest IH]; intros p Hge; [reflexivity|].
  cbn [run]. rewrite IH; rewrite dispatch_full; (assumption || lia).
Qed.

(** X4: the submission that adds the 160th row turns the limit on: the
    counter reads 160, the add control is disabled and reads "Limit
    Reached", the limit marker is set; from then on no event changes the
    row count and the control stays disabled. *)
Theorem X4_limit_reached_at_160 (p : Page) (evs : list Event) :
  length (tableBody p) = 159%nat →
  missingField p = false →
  invalidPhone p = false →
  length (tableBody (handleAddRow p)) = 160%nat
  ∧ rowCountSpan (handleAddRow p) = lit "160"
  ∧ addRowButtonDisabled (handleAddRow p) = true
  ∧ addRowButtonText (handleAddRow p) = lit "Limit Reached"
  ∧ contains (lit "limit-reached") (limitMessage (handleAddRow p)) = true
  ∧ length (tableBody (run evs (handleAddRow p))) = 160%nat
  ∧ addRowButtonDisabled (run evs (handleAddRow p)) = true
  ∧ addRowButtonText (run evs (handleAddRow p)) = lit "Limit Reached".
Proof.
  intros Hlen Hm Hi.
  assert (length (tableBody (handleAddRow p)) = 160%nat) as Hl.
  { rewrite handleAddRow_length, Hm, Hi, Hlen. reflexivity. }
  assert (displayInSync (handleAddRow p)) as Hs.
  { rewrite handleAddRow_unfold, Hm, Hi, Hlen.
    change (159 <? MAX_ROWS)%nat with true. cbv iota.
    apply updateRowCount_sync. }
  assert (length (tableBody (run evs (handleAddRow p))) = 160%nat) as Hr.
  { rewrite run_full; [exact Hl|]. rewrite Hl. reflexivity. }
  pose proof (run_sync evs _ Hs) as (_ & R2 & R3 & _).
  destruct Hs as (S1 & S2 & S3 & S4).
  rewrite Hl in S1, S2, S3, S4. rewrite Hr in R2, R3.
  repeat split; assumption.
Qed.

Lemma X4_limit_reached_at_160_witness :
  let p := withRows (replicate 159 sampleRow)
             (draftPage (lit "Dr. Sen") (lit "987 654 3210") (lit "Neurology")) in
  length (tableBody p) = 159%nat
  ∧ missingField p = false
  ∧ invalidPhone p = false
  ∧ length (tableBody (handleAddRow p)) = 160%nat
  ∧ addRowButtonDisabled (handleAddRow p) = true
  ∧ addRowButtonText (handleAddRow p) = lit "Limit Reached"
  ∧ length (tableBody (run [AddClicked; CheckClicked 3]
                         (handleAddRow p))) = 160%nat.
Proof.
  intros p.
  assert (length (tableBody p) = 159%nat) as H1 by (vm_compute; reflexivity).
  assert (missingField p = false) as H2 by (vm_compute; reflexivity).
  assert (invalidPhone p = false) as H3 by (vm_compute; reflexivity).
  destruct (X4_limit_reached_at_160 p [AddClicked; CheckClicked 3] H1 H2 H3)
    as (E1 & _ & E3 & E4 & _ & E6 & _).
  repeat split; assumption.
Defined.

(** ** Notices *)

Lemma attempts_cons e evs :
  attempts (e :: evs) = ((if isAttempt e then 1 else 0) + attempts evs)%nat.
Proof.
  unfold attempts. rewrite filter_cons.
  destruct (isAttempt e); [rewrite decide_True by reflexivity
                          |rewrite decide_False by discriminate];
    reflexivity.
Qed.

Lemma handleAddRow_notice p :
  ∃ new, alerts (handleAddRow p) = alerts p ++ new
         ∧ Forall (λ m, m = MSG_FILL ∨ m = MSG_PHONE) new
         ∧ (length new + length (tableBody (handleAddRow p))
            ≤ S (length (tableBody p)))%nat.
Proof.
  rewrite handleAddRow_length, handleAddRow_unfold.
  destruct (missingField p).
  { exists [MSG_FILL]. repeat split; [repeat constructor; now left|cbn; lia]. }
  destruct (invalidPhone p).
  { exists [MSG_PHONE]. repeat split; [repeat constructor; now right|cbn; lia]. }
  cbn [negb andb]. exists [].
  destruct (_ <? _)%nat.
  - rewrite updateRowCount_alerts. cbn [setInputs appendChild alerts].
    rewrite app_nil_r. repeat split; [constructor|cbn; lia].
  - rewrite app_nil_r. repeat split; [constructor|cbn; lia].
Qed.

Lemma dispatch_notice e p :
  ∃ new, alerts (dispatch e p) = alerts p ++ new
         ∧ Forall (λ m, m = MSG_FILL ∨ m = MSG_PHONE) new
         ∧ (length new + length (tableBody (dispatch e p))
            ≤ length (tableBody p) + (if isAttempt e then 1 else 0))%nat.
Proof.
  assert (∃ new, alerts p = alerts p ++ new
                 ∧ Forall (λ m, m = MSG_FILL ∨ m = MSG_PHONE) new
                 ∧ (length new + length (tableBody p)
                    ≤ length (tableBody p) + 0)%nat) as Hnone.
  { exists []. rewrite app_nil_r. repeat split; [constructor|cbn; lia]. }
  destruct e as [f v| |f key|i]; cbn [dispatch isAttempt].
  - destruct f; exact Hnone.
  - unfold onAddRowClick. destruct (addRowButtonDisabled p).
    + destruct Hnone as (new & E & F & L).
      exists new. repeat split; [assumption..|lia].
    + destruct (handleAddRow_notice p) as (new & E & F & L).
      exists new. repeat split; [assumption..|lia].
  - unfold onInputKeypress. destruct (bool_decide _); [|exact Hnone].
    destruct (handleAddRow_notice p) as (new & E & F & L).
    exists new. repeat split; [assumption..|lia].
  - rewrite onCheckClick_length. exact Hnone.
Qed.

Lemma run_notice evs : ∀ p,
  ∃ new, alerts (run evs p) = alerts p ++ new
         ∧ Forall (λ m, m = MSG_FILL ∨ m = MSG_PHONE) new
         ∧ (length new + length (tableBody (run evs p))
            ≤ length (tableBody p) + attempts evs)%nat.
Proof.
  induction evs as [|e rest IH]; intros p.
  - exists []. rewrite app_nil_r. repeat split; [constructor|cbn; lia].
  - cbn [run]. destruct (dispatch_notice e p) as (n1 & E1 & F1 & L1).
    destruct (IH (dispatch e p)) as (n2 & E2 & F2 & L2).
    exists (n1 ++ n2). rewrite E2, E1, <- app_assoc.
    repeat split.
    + apply Forall_app. now split.
    + rewrite attempts_cons, length_app. lia.
Qed.

(** X5: the script only ever raises its two notices, and never takes one
    back: after any sequence of events the notice log is the old log
    followed by fill-in and phone-format notices only, and the notices
    raised plus the rows added are at most as many as the events that
    call [handleAddRow] (add-control activations and Enter key-presses):
    typing, other keys and toggles raise nothing and add nothing, and no
    submission both raises a notice and adds a row. *)
Theorem X5_notices_and_rows_per_attempt (p : Page) (evs : list Event) :
  ∃ new, alerts (run evs p) = alerts p ++ new
         ∧ Forall (λ m, m = MSG_FILL ∨ m = MSG_PHONE) new
         ∧ (length new + length (tableBody (run evs p))
            ≤ length (tableBody p) + attempts evs)%nat.
Proof. apply run_notice. Qed.

(** ** A batch of submissions *)

Lemma submit_tableBody x p :
  tableBody (submit x p) =
    if validInput x && (length (tableBody p) <? MAX_ROWS)%nat
    then tableBody p ++ [rowOf x]
    else tableBody p.
Proof.
  destruct x as [[n num] a]. cbn [submit run dispatch].
  rewrite onInputKeypress_Enter, handleAddRow_tableBody.
  unfold missingField, invalidPhone, validInput, rowOf.
  cbn [typeInto setInputs tableBody nameInput numberInput areaInput].
  destruct (truthy (trim n)), (truthy (trim num)), (truthy (trim a)),
    (isValidPhoneNumber (trim num)); reflexivity.
Qed.

Lemma submitAll_tableBody xs : ∀ p,
  tableBody (submitAll xs p) =
    tableBody p
    ++ take (MAX_ROWS - length (tableBody p))
            (rowOf <$> filter (λ x, validInput x = true) xs).
Proof.
  induction xs as [|x xs IH]; intros p; cbn [submitAll fold_left].
  - rewrite filter_nil. cbn [fmap list_fmap]. now rewrite take_nil, app_nil_r.
  - fold (submitAll xs (submit x p)). rewrite IH, submit_tableBody.
    rewrite filter_cons.
    destruct (validInput x) eqn:Hx; cbn [andb].
    + rewrite decide_True by reflexivity. rewrite fmap_cons.
      destruct (Nat.ltb_spec (length (tableBody p)) MAX_ROWS) as [Hlt|Hge].
      * rewrite length_app. cbn [length].
        replace (MAX_ROWS - length (tableBody p))%nat
          with (S (MAX_ROWS - (length (tableBody p) + 1)))%nat by lia.
        cbn [take]. now rewrite <- app_assoc.
      * replace (MAX_ROWS - length (tableBody p))%nat with 0%nat by lia.
        reflexivity.
    + rewrite decide_False by discriminate. reflexivity.
Qed.

(** X6: after a batch of submissions the table is the old table followed
    by the rows of the valid submissions, in the order they were made and
    built from the trimmed drafts, cut off where the table reaches 160
    rows; invalid submissions leave no trace in the table. *)
Theorem X6_batch_of_submissions
  (p : Page) (xs : list (jsstring * jsstring * jsstring)) :
  tableBody (submitAll xs p) =
    tableBody p
    ++ take (MAX_ROWS - length (tableBody p))
            (rowOf <$> filter (λ x, validInput x = true) xs)
  ∧ length (tableBody (submitAll xs p)) =
      (length (tableBody p)
       + Nat.min (MAX_ROWS - length (tableBody p))
                 (length (filter (λ x, validInput x = true) xs)))%nat.
Proof.
  split; [apply submitAll_tableBody|].
  rewrite submitAll_tableBody, length_app, length_take, length_fmap.
  reflexivity.
Qed.

(** ** The toggle on any row *)

Lemma checked_neq_unchecked : lit "checked" ≠ lit "unchecked".
Proof. vm_compute. discriminate. Qed.

Lemma toggleCheck_classList r :
  classList (checkButton (toggleCheck r)) =
    if isUnchecked r
    then add (lit "checked") (remove (lit "unchecked") (classList (checkButton r)))
    else add (lit "unchecked") (remove (lit "checked") (classList (checkButton r))).
Proof. unfold toggleCheck, isUnchecked. now destruct (contains _ _). Qed.

Lemma toggleCheck_buttonText r :
  buttonText (checkButton (toggleCheck r)) =
    if isUnchecked r then CHECKED_GLYPH else UNCHECKED_GLYPH.
Proof. unfold toggleCheck, isUnchecked. now destruct (contains _ _). Qed.

Lemma toggleCheck_styleOpacity r :
  styleOpacity (toggleCheck r) = if isUnchecked r then lit "0.6" else lit "1".
Proof. unfold toggleCheck, isUnchecked. now destruct (contains _ _). Qed.

Lemma toggleCheck_contains t r :
  contains t (classList (checkButton (toggleCheck r))) =
    if bool_decide (t = lit "unchecked") then negb (isUnchecked r)
    else if bool_decide (t = lit "checked") then isUnchecked r
    else contains t (classList (checkButton r)).
Proof.
  rewrite toggleCheck_classList.
  destruct (isUnchecked r) eqn:E; rewrite contains_add, contains_remove;
    destruct (bool_decide (t = lit "unchecked")) eqn:Eu;
    destruct (bool_decide (t = lit "checked")) eqn:Ec;
    cbn [negb andb orb]; try reflexivity.
  apply bool_decide_eq_true in Eu, Ec. subst t.
  now destruct checked_neq_unchecked.
Qed.

Lemma isUnchecked_toggleCheck r :
  isUnchecked (toggleCheck r) = negb (isUnchecked r).
Proof. unfold isUnchecked at 1. now rewrite toggleCheck_contains. Qed.

Lemma isChecked_toggleCheck r : isChecked (toggleCheck r) = isUnchecked r.
Proof.
  unfold isChecked. rewrite toggleCheck_contains.
  rewrite (bool_decide_false _ checked_neq_unchecked).
  now rewrite bool_decide_true.
Qed.

Lemma toggleCheck_coherent r : toggleCoherent (toggleCheck r).
Proof.
  unfold toggleCoherent.
  rewrite isChecked_toggleCheck, isUnchecked_toggleCheck.
  rewrite toggleCheck_buttonText, toggleCheck_styleOpacity.
  destruct (isUnchecked r); cbn [negb]; repeat split. now right.
Qed.

(** X7: one click on the check button puts any row, whatever classes its
    button had, into a coherent state with the done-state flipped: the
    button carries exactly one of the classes [checked] and [unchecked],
    the glyph is the tick with opacity 0.6 when checked and the empty box
    with opacity 1 when unchecked; every other class of the button and
    the data cells of the row are kept. *)
Theorem X7_toggle_flips_and_normalises (r : Row) :
  isUnchecked (toggleCheck r) = negb (isUnchecked r)
  ∧ isChecked (toggleCheck r) = isUnchecked r
  ∧ buttonText (checkButton (toggleCheck r))
    = (if isUnchecked r then CHECKED_GLYPH else UNCHECKED_GLYPH)
  ∧ styleOpacity (toggleCheck r)
    = (if isUnchecked r then lit "0.6" else lit "1")
  ∧ toggleCoherent (toggleCheck r)
  ∧ (∀ t, t = lit "checked" ∨ t = lit "unchecked"
          ∨ contains t (classList (checkButton (toggleCheck r)))
            = contains t (classList (checkButton r)))
  ∧ rowCells (toggleCheck r) = rowCells r
  ∧ buttonCellLabel (toggleCheck r) = buttonCellLabel r.
Proof.
  split; [apply isUnchecked_toggleCheck|].
  split; [apply isChecked_toggleCheck|].
  split; [apply toggleCheck_buttonText|].
  split; [apply toggleCheck_styleOpacity|].
  split; [apply toggleCheck_coherent|].
  split; [|split; [apply rowCells_toggleCheck|apply toggleCheck_cells]].
  intros t. rewrite toggleCheck_contains.
  destruct (bool_decide (t = lit "unchecked")) eqn:Eu;
    [apply bool_decide_eq_true in Eu; tauto|].
  destruct (bool_decide (t = lit "checked")) eqn:Ec;
    [apply bool_decide_eq_true in Ec; tauto|].
  now right; right.
Qed.

Lemma row_ext (r1 r2 : Row) :
  rowCells r1 = rowCells r2 →
  buttonCellLabel r1 = buttonCellLabel r2 →
  classList (checkButton r1) = classList (checkButton r2) →
  buttonText (checkButton r1) = buttonText (checkButton r2) →
  styleOpacity r1 = styleOpacity r2 →
  r1 = r2.
Proof.
  destruct r1 as [n1 m1 a1 l1 [c1 t1] o1], r2 as [n2 m2 a2 l2 [c2 t2] o2].
  unfold rowCells. cbn. intros [= -> -> ->] -> -> -> ->. reflexivity.
Qed.

(** From a button without the [unchecked] class, three toggles give the
    same class list as one. *)
Lemma toggle3_classList r :
  isUnchecked r = false →
  classList (checkButton (toggleCheck (toggleCheck (toggleCheck r))))
  = classList (checkButton (toggleCheck r)).
Proof.
  intros Hu.
  set (R := remove (lit "checked") (classList (checkButton r))).
  assert (contains (lit "unchecked") R = false) as HRu.
  { unfold R. rewrite contains_remove. unfold isUnchecked in Hu.
    now rewrite Hu, andb_false_r. }
  assert (contains (lit "checked") R = false) as HRc.
  { unfold R. rewrite contains_remove. now rewrite bool_decide_true. }
  assert (classList (checkButton (toggleCheck r)) = R ++ [lit "unchecked"])
    as E1.
  { rewrite toggleCheck_classList, Hu. fold R. unfold add. now rewrite HRu. }
  assert (classList (checkButton (toggleCheck (toggleCheck r)))
          = R ++ [lit "checked"]) as E2.
  { rewrite toggleCheck_classList, isUnchecked_toggleCheck, Hu. cbn [negb].
    rewrite E1, remove_app, (remove_absent _ R HRu).
    unfold remove at 1. rewrite filter_cons_False by (intros H; now apply H).
    rewrite filter_nil, app_nil_r. unfold add. now rewrite HRc. }
  rewrite toggleCheck_classList, !isUnchecked_toggleCheck, Hu. cbn [negb].
  rewrite E2, E1, remove_app, (remove_absent _ R HRc).
  unfold remove at 1. rewrite filter_cons_False by (intros H; now apply H).
  rewrite filter_nil, app_nil_r. unfold add. now rewrite HRu.
Qed.

Lemma toggle3 r :
  isUnchecked r = false →
  toggleCheck (toggleCheck (toggleCheck r)) = toggleCheck r.
Proof.
  intros Hu. apply row_ext.
  - now rewrite !rowCells_toggleCheck.
  - destruct (toggleCheck_cells (toggleCheck (toggleCheck r))) as (_&_&_&->).
    destruct (toggleCheck_cells (toggleCheck r)) as (_&_&_&->).
    reflexivity.
  - now apply toggle3_classList.
  - rewrite !toggleCheck_buttonText, !isUnchecked_toggleCheck.
    now rewrite negb_involutive.
  - rewrite !toggleCheck_styleOpacity, !isUnchecked_toggleCheck.
    now rewrite negb_involutive.
Qed.

(** X8: for every row, two more toggles after the first two give back
    the very same row: from the second click on, the toggle alternates
    exactly between two rows.  When the button did not carry the
    [unchecked] class to begin with this already holds from the first
    click on. *)
Theorem X8_toggle_alternates (r : Row) :
  toggleCheck (toggleCheck (toggleCheck (toggleCheck r)))
  = toggleCheck (toggleCheck r)
  ∧ (isUnchecked r = true
     ∨ toggleCheck (toggleCheck (toggleCheck r)) = toggleCheck r).
Proof.
  destruct (isUnchecked r) eqn:Hu.
  - split; [|now left]. apply toggle3.
    now rewrite isUnchecked_toggleCheck, Hu.
  - split; [|right; now apply toggle3]. now rewrite (toggle3 r Hu).
Qed.

(** ** More on phone numbers *)

Lemma isDigit_not_separator c : isDigit c = true → isSeparator c = false.
Proof.
  unfold isDigit, isSeparator, isSpace, isWhiteSpace, isLineTerminator.
  rewrite andb_true_iff, !N.leb_le. intros [H1 H2].
  rewrite !orb_false_iff, andb_false_iff, !N.eqb_neq, !N.leb_gt. lia.
Qed.

Lemma isValidPhoneNumber_cleaned s :
  isValidPhoneNumber s = true ↔
  length (filter (λ c, isSeparator c = false) s) = 10%nat
  ∧ Forall (λ c, isDigit c = true) (filter (λ c, isSeparator c = false) s).
Proof.
  unfold isValidPhoneNumber. rewrite replaceClassGlobal_filter.
  apply testAnchoredRepeat_spec.
Qed.

Lemma cleaned_all_digits s :
  Forall (λ c, isDigit c = true) (filter (λ c, isSeparator c = false) s)
  ↔ Forall (λ c, isDigit c = true ∨ isSeparator c = true) s.
Proof.
  induction s as [|c r IH]; [split; constructor|].
  rewrite filter_cons. destruct (isSeparator c) eqn:E.
  - rewrite decide_False by discriminate. rewrite IH. split.
    + intros H. constructor; [now right|exact H].
    + now inversion 1.
  - rewrite decide_True by reflexivity. split.
    + inversion 1; subst. constructor; [now left|now apply IH].
    + inversion 1 as [|? ? [Hd|Hs] Hr]; subst; [|congruence].
      constructor; [exact Hd|now apply IH].
Qed.

Lemma cleaned_is_digits s :
  Forall (λ c, isDigit c = true ∨ isSeparator c = true) s →
  filter (λ c, isSeparator c = false) s = filter (λ c, isDigit c = true) s.
Proof.
  induction 1 as [|c r [Hd|Hs] Hr IH]; [reflexivity| |].
  - rewrite !filter_cons.
    rewrite decide_True by now apply isDigit_not_separator.
    rewrite decide_True by exact Hd. now f_equal.
  - rewrite !filter_cons. rewrite decide_False by congruence.
    rewrite decide_False; [exact IH|].
    intros Hd. apply isDigit_not_separator in Hd. congruence.
Qed.

(** X9: a number is accepted exactly when it holds ten decimal digits
    and nothing else but whitespace, hyphens and parentheses, wherever
    those stand.  So the empty string is refused, and so is any string
    with a letter, a plus sign or a dot in it. *)
Theorem X9_valid_iff_ten_digits_and_separators (s : jsstring) :
  (isValidPhoneNumber s = true ↔
   length (filter (λ c, isDigit c = true) s) = 10%nat
   ∧ Forall (λ c, isDigit c = true ∨ isSeparator c = true) s)
  ∧ isValidPhoneNumber [] = false
  ∧ (∀ c a b, isDigit c = true ∨ isSeparator c = true
              ∨ isValidPhoneNumber (a ++ c :: b) = false).
Proof.
  assert (isValidPhoneNumber s = true ↔
          length (filter (λ c, isDigit c = true) s) = 10%nat
          ∧ Forall (λ c, isDigit c = true ∨ isSeparator c = true) s) as Hiff.
  { rewrite isValidPhoneNumber_cleaned, cleaned_all_digits. split.
    - intros [Hl Hf]. now rewrite <- (cleaned_is_digits s Hf).
    - intros [Hl Hf]. now rewrite (cleaned_is_digits s Hf). }
  split; [exact Hiff|]. split; [reflexivity|].
  intros c a b.
  destruct (isDigit c) eqn:Ed; [now left|].
  destruct (isSeparator c) eqn:Es; [now right; left|right; right].
  apply not_true_is_false. intros Hv.
  apply isValidPhoneNumber_cleaned in Hv as [_ Hf].
  apply cleaned_all_digits in Hf.
  apply Forall_app in Hf as [_ Hf]. inversion Hf as [|? ? [H|H] _]; congruence.
Qed.

Lemma cleaned_app a b :
  replaceClassGlobal isSeparator [] (a ++ b)
  = replaceClassGlobal isSeparator [] a ++ replaceClassGlobal isSeparator [] b.
Proof. rewrite !replaceClassGlobal_filter. apply filter_app. Qed.

Lemma cleaned_separators seps :
  Forall (λ c, isSeparator c = true) seps →
  replaceClassGlobal isSeparator [] seps = [].
Proof.
  induction 1 as [|c r Hc Hr IH]; [reflexivity|].
  cbn [replaceClassGlobal]. now rewrite Hc.
Qed.

(** X10: whitespace, hyphens and parentheses do not count: writing any
    run of them anywhere in a number, or taking it out, does not change
    the verdict of [isValidPhoneNumber], and neither does trimming the
    number first. *)
Theorem X10_separators_do_not_matter (a seps b : jsstring) :
  Forall (λ c, isSeparator c = true) seps →
  isValidPhoneNumber (a ++ seps ++ b) = isValidPhoneNumber (a ++ b)
  ∧ isValidPhoneNumber (trim (a ++ seps ++ b))
    = isValidPhoneNumber (a ++ b).
Proof.
  intros Hs.
  assert (isValidPhoneNumber (a ++ seps ++ b) = isValidPhoneNumber (a ++ b))
    as E.
  { unfold isValidPhoneNumber.
    now rewrite !cleaned_app, (cleaned_separators seps Hs). }
  split; [exact E|]. unfold isValidPhoneNumber at 1.
  rewrite cleaned_trim. exact E.
Qed.

Lemma X10_separators_do_not_matter_witness :
  Forall (λ c, isSeparator c = true) (lit ") - ")
  ∧ isValidPhoneNumber (lit "(123" ++ lit ") - " ++ lit "4567890")
    = isValidPhoneNumber (lit "(123" ++ lit "4567890")
  ∧ isValidPhoneNumber (trim (lit "(123" ++ lit ") - " ++ lit "4567890"))
    = isValidPhoneNumber (lit "(123" ++ lit "4567890").
Proof.
  assert (Forall (λ c, isSeparator c = true) (lit ") - ")) as H
    by (repeat constructor).
  split; [exact H|].
  exact (X10_separators_do_not_matter (lit "(123") (lit ") - ")
           (lit "4567890") H).
Defined.

(** ** What the rows hold *)

Lemma trimStart_suffix s : ∃ l, s = l ++ trimStart s.
Proof.
  induction s as [|c r [l IH]]; [now exists []|]. cbn [trimStart].
  destruct (isSpace c); [|now exists []].
  exists (c :: l). cbn [app]. now f_equal.
Qed.

(** A trimmed string has no whitespace at either end. *)
Lemma noOuterSpace_of_trim s : noOuterSpace (trim s) = true.
Proof.
  unfold trim, trimEnd.
  destruct (trimStart_suffix (reverse (trimStart s))) as [l Hl].
  destruct (trimStart_head (reverse (trimStart s)))
    as [Hv|(d & t & Hv & Hd)]; rewrite Hv; [reflexivity|].
  rewrite Hv in Hl. apply (f_equal reverse) in Hl.
  rewrite reverse_involutive, reverse_app in Hl.
  unfold noOuterSpace.
  destruct (reverse (d :: t)) as [|c y] eqn:Ey; [reflexivity|].
  rewrite <- Ey, reverse_involutive, Hd. cbn [app] in Hl.
  destruct (trimStart_head s) as [Hn|(c' & r' & Hs & Hc)];
    rewrite ?Hn, ?Hs in Hl; [discriminate|].
  injection Hl as -> _. now rewrite Hc.
Qed.

Lemma createNewRow_storedValid p :
  missingField p = false → invalidPhone p = false →
  storedValid (rowOf (nameInput p, numberInput p, areaInput p)).
Proof.
  intros (Hn & _ & Ha)%missingField_false Hi.
  unfold storedValid, rowOf.
  cbn [createNewRow nameCell numberCell areaCell textContent].
  unfold invalidPhone in Hi. apply negb_false_iff in Hi.
  repeat split; try assumption; apply noOuterSpace_of_trim.
Qed.

Lemma toggleCheck_storedValid r : storedValid r → storedValid (toggleCheck r).
Proof.
  unfold storedValid.
  now destruct (toggleCheck_cells r) as (-> & -> & -> & _).
Qed.

Lemma handleAddRow_storedValid p :
  Forall storedValid (tableBody p) →
  Forall storedValid (tableBody (handleAddRow p)).
Proof.
  intros H. destruct (handleAddRow_rows p) as [->|(-> & Hm & Hi & _)];
    [exact H|].
  apply Forall_app. split; [exact H|].
  constructor; [now apply createNewRow_storedValid|constructor].
Qed.

Lemma dispatch_storedValid e p :
  Forall storedValid (tableBody p) →
  Forall storedValid (tableBody (dispatch e p)).
Proof.
  intros H. destruct e as [f v| |f key|i]; cbn [dispatch].
  - now rewrite typeInto_tableBody.
  - unfold onAddRowClick. destruct (addRowButtonDisabled p);
      [exact H|now apply handleAddRow_storedValid].
  - unfold onInputKeypress. destruct (bool_decide _);
      [now apply handleAddRow_storedValid|exact H].
  - cbn [onCheckClick withRows tableBody]. apply Forall_alter; [exact H|].
    intros r _. apply toggleCheck_storedValid.
Qed.

Lemma run_storedValid evs : ∀ p,
  Forall storedValid (tableBody p) →
  Forall storedValid (tableBody (run evs p)).
Proof.
  induction evs as [|e rest IH]; intros p H; [exact H|].
  cbn [run]. apply IH. now apply dispatch_storedValid.
Qed.

(** X11: the script only stores validated data.  If every row of the
    table holds a non-empty name and area and a number that passes
    [isValidPhoneNumber], all three without whitespace at either end,
    then so does every row of the table after any sequence of events; a
    table that starts empty therefore only ever holds such rows. *)
Theorem X11_rows_hold_validated_data (p : Page) (evs : list Event) :
  Forall storedValid (tableBody p) →
  Forall storedValid (tableBody (run evs p)).
Proof. apply run_storedValid. Qed.

Lemma X11_rows_hold_validated_data_witness :
  Forall storedValid (tableBody blankPage)
  ∧ Forall storedValid
      (tableBody (run [Typed NameField (lit " Dr. Rao ");
                       Typed NumberField (lit " 123-456-7890");
                       Typed AreaField (lit "Cardiology");
                       KeyPressed AreaField (lit "Enter");
                       CheckClicked 0; AddClicked]
                      blankPage)).
Proof.
  assert (Forall storedValid (tableBody blankPage)) as H by constructor.
  split; [exact H|].
  exact (X11_rows_hold_validated_data blankPage _ H).
Defined.

(** ** How the rows look *)

Lemma createNewRow_presentable name number area :
  rowPresentable (createNewRow name number area).
Proof. repeat split. now left. Qed.

Lemma toggleCheck_presentable r :
  rowPresentable r → rowPresentable (toggleCheck r).
Proof.
  intros ((L1 & L2 & L3 & L4) & _ & Hb).
  destruct (toggleCheck_cells r) as (E1 & E2 & E3 & E4).
  split; [|split].
  - unfold rowLabelled. now rewrite E1, E2, E3, E4.
  - apply toggleCheck_coherent.
  - rewrite toggleCheck_contains. exact Hb.
Qed.

Lemma dispatch_presentable e p :
  Forall rowPresentable (tableBody p) →
  Forall rowPresentable (tableBody (dispatch e p)).
Proof.
  intros H.
  assert (Forall rowPresentable (tableBody (handleAddRow p))) as Hadd.
  { destruct (handleAddRow_rows p) as [->|(-> & _)]; [exact H|].
    apply Forall_app. split; [exact H|].
    constructor; [apply createNewRow_presentable|constructor]. }
  destruct e as [f v| |f key|i]; cbn [dispatch].
  - now rewrite typeInto_tableBody.
  - unfold onAddRowClick. destruct (addRowButtonDisabled p);
      [first [assumption|reflexivity]|exact Hadd].
  - unfold onInputKeypress. now destruct (bool_decide _).
  - cbn [onCheckClick withRows tableBody]. apply Forall_alter; [exact H|].
    intros r _. apply toggleCheck_presentable.
Qed.

Lemma run_presentable evs : ∀ p,
  Forall rowPresentable (tableBody p) →
  Forall rowPresentable (tableBody (run evs p)).
Proof.
  induction evs as [|e rest IH]; intros p H; [exact H|].
  cbn [run]. apply IH. now apply dispatch_presentable.
Qed.

Lemma initialize_tableBody p :
  tableBody (initialize p) = setRowLabels <$> tableBody p.
Proof. unfold initialize. now rewrite updateRowCount_tableBody. Qed.

(** X12: if the rows that are in the table when the script starts have
    a check button with the [check-button] class in a coherent state,
    then after the set-up and any sequence of events every row of the
    table carries the four column labels and has its button in a
    coherent state (one of the two classes, the matching glyph and
    opacity), the rows added by submissions included. *)
Theorem X12_rows_stay_presentable (p0 : Page) (evs : list Event) :
  Forall (λ r, toggleCoherent r
               ∧ contains (lit "check-button") (classList (checkButton r))
                 = true) (tableBody p0) →
  Forall rowPresentable (tableBody (run evs (initialize p0))).
Proof.
  intros H. apply run_presentable. rewrite initialize_tableBody.
  apply Forall_fmap. eapply Forall_impl; [exact H|].
  intros r [Hc Hb]. unfold compose.
  split; [repeat split|split; [exact Hc|exact Hb]].
Qed.

Lemma X12_rows_stay_presentable_witness :
  let p0 := mkPage [mkRow (mkCell (lit "Dr. Rao") None)
                          (mkCell (lit "123-456-7890") None)
                          (mkCell (lit "Cardiology") None) None
                          (mkButton [lit "check-button"; lit "unchecked"]
                                    UNCHECKED_GLYPH) []]
                   [] [] [] (lit "0") [] false (lit "Add Appointment") [] in
  Forall (λ r, toggleCoherent r
               ∧ contains (lit "check-button") (classList (checkButton r))
                 = true) (tableBody p0)
  ∧ Forall rowPresentable
      (tableBody (run [CheckClicked 0; AddClicked] (initialize p0))).
Proof.
  intros p0.
  assert (Forall (λ r, toggleCoherent r
               ∧ contains (lit "check-button") (classList (checkButton r))
                 = true) (tableBody p0)) as H.
  { repeat constructor. }
  split; [exact H|].
  exact (X12_rows_stay_presentable p0 [CheckClicked 0; AddClicked] H).
Defined.

(** ** The set-up *)

Lemma withRows_tableBody p : withRows (tableBody p) p = p.
Proof. now destruct p. Qed.

Lemma setRowLabels_idem r : setRowLabels (setRowLabels r) = setRowLabels r.
Proof. reflexivity. Qed.

Lemma initialize_idem p : initialize (initialize p) = initialize p.
Proof.
  assert (∀ l : list Row,
            setRowLabels <$> (setRowLabels <$> l) = setRowLabels <$> l) as Hl.
  { induction l as [|r l IH]; [reflexivity|].
    rewrite !fmap_cons, IH. reflexivity. }
  unfold initialize at 1. rewrite initialize_tableBody, Hl.
  unfold initialize.
  set (q := withRows (setRowLabels <$> tableBody p) p).
  change (setRowLabels <$> tableBody p) with (tableBody q).
  rewrite <- (updateRowCount_tableBody q), withRows_tableBody.
  apply updateRowCount_idem.
Qed.

(** X13: the set-up labels the rows that were already in the table
    exactly as [createNewRow] labels the rows it makes, and changes
    nothing else in them: texts, buttons, opacity, order and number of
    rows are kept, as are the drafts and the notices; the display is
    brought in line with the row count; running the set-up twice is the
    same as running it once. *)
Theorem X13_initialize_labels_existing_rows (p : Page) :
  Forall rowLabelled (tableBody (initialize p))
  ∧ rowTexts <$> tableBody (initialize p) = rowTexts <$> tableBody p
  ∧ checkButton <$> tableBody (initialize p) = checkButton <$> tableBody p
  ∧ styleOpacity <$> tableBody (initialize p) = styleOpacity <$> tableBody p
  ∧ length (tableBody (initialize p)) = length (tableBody p)
  ∧ displayInSync (initialize p)
  ∧ nameInput (initialize p) = nameInput p
  ∧ numberInput (initialize p) = numberInput p
  ∧ areaInput (initialize p) = areaInput p
  ∧ alerts (initialize p) = alerts p
  ∧ initialize (initialize p) = initialize p
  ∧ (∀ name number area,
       setRowLabels (createNewRow name number area)
       = createNewRow name number area).
Proof.
  destruct (updateRowCount_inputs
              (withRows (setRowLabels <$> tableBody p) p)) as (I1 & I2 & I3).
  rewrite initialize_tableBody, <- !list_fmap_compose, length_fmap.
  split; [apply Forall_fmap, Forall_forall; intros r _; repeat split|].
  split; [reflexivity|]. split; [reflexivity|]. split; [reflexivity|].
  split; [reflexivity|].
  split; [apply updateRowCount_sync|].
  split; [exact I1|]. split; [exact I2|]. split; [exact I3|].
  split; [unfold initialize; now rewrite updateRowCount_alerts|].
  split; [apply initialize_idem|reflexivity].
Qed.

(** ** The counter text *)

Lemma uintUnits_inj d : ∀ d', uintUnits d = uintUnits d' → d = d'.
Proof.
  induction d as [|d IH|d IH|d IH|d IH|d IH|d IH|d IH|d IH|d IH|d IH];
    intros [|d'|d'|d'|d'|d'|d'|d'|d'|d'|d']; cbn [uintUnits];
    intros H; try discriminate; try reflexivity;
    injection H as H; f_equal; now apply IH.
Qed.

Lemma uintUnits_digits d : Forall (λ c, isDigit c = true) (uintUnits d).
Proof.
  induction d; cbn [uintUnits]; constructor; (reflexivity || assumption).
Qed.

Lemma numberToString_inj n m : numberToString n = numberToString m → n = m.
Proof.
  unfold numberToString. intros H%uintUnits_inj.
  now apply DecimalNat.Unsigned.to_uint_inj.
Qed.

(** X14: the counter text is the row count in decimal digits and
    nothing else, and it tells the counts apart: two refreshed pages show
    the same counter text exactly when their tables have the same number
    of rows. *)
Theorem X14_counter_text_identifies_count (p q : Page) :
  (rowCountSpan (updateRowCount p) = rowCountSpan (updateRowCount q)
   ↔ length (tableBody p) = length (tableBody q))
  ∧ Forall (λ c, isDigit c = true) (rowCountSpan (updateRowCount p)).
Proof.
  destruct (updateRowCount_sync p) as (Ep & _).
  destruct (updateRowCount_sync q) as (Eq & _).
  rewrite updateRowCount_tableBody in Ep, Eq. rewrite Ep, Eq.
  split; [split; [apply numberToString_inj|now intros ->]|].
  apply uintUnits_digits.
Qed.

(** ** Submitting twice *)

Lemma handleAddRow_clears p :
  length (tableBody (handleAddRow p)) = S (length (tableBody p)) →
  nameInput (handleAddRow p) = [] ∧ numberInput (handleAddRow p) = []
  ∧ areaInput (handleAddRow p) = [] ∧ alerts (handleAddRow p) = alerts p.
Proof.
  intros (Hm & Hi & Hc)%handleAddRow_success.
  rewrite handleAddRow_unfold, Hm, Hi, Hc.
  rewrite updateRowCount_alerts.
  now destruct (updateRowCount_inputs
                  (setInputs [] [] []
                     (appendChild (createNewRow (trim (nameInput p))
                                     (trim (numberInput p))
                                     (trim (areaInput p))) p)))
    as (-> & -> & ->).
Qed.

(** ** The four outcomes of a submission *)

Lemma missingField_blank p :
  missingField p = true
  ↔ blank (nameInput p) ∨ blank (numberInput p) ∨ blank (areaInput p).
Proof. rewrite missingField_true. unfold blank. now rewrite !trim_nil. Qed.

Lemma invalidPhone_raw p :
  invalidPhone p = negb (isValidPhoneNumber (numberInput p)).
Proof. unfold invalidPhone. now rewrite isValidPhoneNumber_trim. Qed.

Lemma snoc_neq {A} (l : list A) (x : A) : l ++ [x] ≠ l.
Proof.
  intros H. apply (f_equal length) in H. rewrite length_app in H.
  cbn in H. lia.
Qed.

(** The result of [handleAddRow] in each of its four cases. *)
Lemma handleAddRow_cases p :
  (missingField p = true ∧ handleAddRow p = alert MSG_FILL p)
  ∨ (missingField p = false ∧ invalidPhone p = true
     ∧ handleAddRow p = alert MSG_PHONE p)
  ∨ (missingField p = false ∧ invalidPhone p = false
     ∧ (length (tableBody p) < MAX_ROWS)%nat
     ∧ alerts (handleAddRow p) = alerts p
     ∧ length (tableBody (handleAddRow p)) = S (length (tableBody p)))
  ∨ (missingField p = false ∧ invalidPhone p = false
     ∧ (MAX_ROWS ≤ length (tableBody p))%nat
     ∧ handleAddRow p = p).
Proof.
  pose proof (handleAddRow_length p) as Hl.
  rewrite handleAddRow_unfold in *.
  destruct (missingField p); [now left|].
  destruct (invalidPhone p); [now right; left|].
  cbn [negb andb] in Hl.
  destruct (Nat.ltb_spec (length (tableBody p)) MAX_ROWS) as [Hlt|Hge].
  - right; right; left. repeat split; try assumption.
    now rewrite updateRowCount_alerts.
  - right; right; right. repeat split; assumption.
Qed.

Lemma alert_neq m p : alert m p ≠ p.
Proof.
  intros H. apply (f_equal alerts) in H. cbn [alert alerts] in H.
  now apply snoc_neq in H.
Qed.

Lemma alert_snoc_inv (l : list jsstring) m1 m2 :
  l ++ [m1] = l ++ [m2] → m1 = m2.
Proof. intros H%app_inv_head. congruence. Qed.

Ltac outcome_absurd :=
  match goal with
  | H : ?l ++ [?a] = ?l ++ [?b] |- _ =>
      apply alert_snoc_inv in H; congruence
  | H : ?l = ?l ++ [_] |- _ => symmetry in H; now apply snoc_neq in H
  | H : ?l ++ [_] = ?l |- _ => now apply snoc_neq in H
  | H : alert _ ?p = ?p |- _ => now apply alert_neq in H
  end.

(** X16: what a submission does is decided by the drafts as typed and
    the row count, and the four outcomes exclude each other.  The
    fill-in notice is raised exactly when some draft is empty or
    whitespace only; the phone-format notice exactly when no draft is
    blank and the number as typed is not valid; a row is added exactly
    when no draft is blank, the number is valid and the table holds
    fewer than 160 rows; and the page is left as it is exactly when no
    draft is blank, the number is valid and the table is full. *)
Theorem X16_submission_outcomes (p : Page) :
  (alerts (handleAddRow p) = alerts p ++ [MSG_FILL]
   ↔ blank (nameInput p) ∨ blank (numberInput p) ∨ blank (areaInput p))
  ∧ (alerts (handleAddRow p) = alerts p ++ [MSG_PHONE]
     ↔ ¬ (blank (nameInput p) ∨ blank (numberInput p) ∨ blank (areaInput p))
       ∧ isValidPhoneNumber (numberInput p) = false)
  ∧ (length (tableBody (handleAddRow p)) = S (length (tableBody p))
     ↔ ¬ (blank (nameInput p) ∨ blank (numberInput p) ∨ blank (areaInput p))
       ∧ isValidPhoneNumber (numberInput p) = true
       ∧ (length (tableBody p) < MAX_ROWS)%nat)
  ∧ (handleAddRow p = p
     ↔ ¬ (blank (nameInput p) ∨ blank (numberInput p) ∨ blank (areaInput p))
       ∧ isValidPhoneNumber (numberInput p) = true
       ∧ (MAX_ROWS ≤ length (tableBody p))%nat).
Proof.
  rewrite <- missingField_blank.
  assert (isValidPhoneNumber (numberInput p) = negb (invalidPhone p)) as ->
    by (rewrite invalidPhone_raw; now rewrite negb_involutive).
  pose proof MSG_FILL_neq_MSG_PHONE as Hne.
  pose proof (snoc_neq (alerts p)) as Hsn.
  destruct (handleAddRow_cases p)
    as [(Hm & E)|[(Hm & Hi & E)|[(Hm & Hi & Hc & Ea & El)
                                |(Hm & Hi & Hc & E)]]].
  - rewrite E, Hm. cbn [alert alerts tableBody].
    pose proof (alert_neq MSG_FILL p).
    repeat split; intros; try (exfalso; outcome_absurd);
      try (intuition (congruence || lia)).
  - rewrite E, Hm, Hi. cbn [alert alerts tableBody negb].
    pose proof (alert_neq MSG_PHONE p).
    repeat split; intros; try (exfalso; outcome_absurd);
      try (intuition (congruence || lia)).
  - rewrite Ea, El, Hm, Hi. cbn [negb].
    assert (handleAddRow p ≠ p)
      by (intros X; rewrite X in El; lia).
    repeat split; intros; try (exfalso; outcome_absurd);
      try (intuition (congruence || lia)).
  - rewrite E, Hm, Hi. cbn [negb].
    repeat split; intros; try (exfalso; outcome_absurd);
      try (intuition (congruence || lia)).
Qed.

(** ** The toggle within the table *)

(** C7: a click on the check button of a row [r] of the table replaces
    [r], at its position, by a row whose done-state is flipped: the
    button loses the class it had of [unchecked]/[checked] and gets the
    other, the glyph and the opacity of the row follow (tick and 0.6 when
    it becomes checked, empty box and 1 when it becomes unchecked), and
    nothing else of the row changes: its three data cells, the label of
    its fourth cell and the other classes of its button are kept.  Every
    other row is the same row as before, and the row count, the three
    drafts, the counter, the limit marker, the add button and the
    notices are unchanged. *)
Theorem C7_toggle_changes_one_row (p : Page) (i j : nat) (r : Row) :
  i ≠ j →
  tableBody p !! i = Some r →
  tableBody (onCheckClick i p) !! j = tableBody p !! j
  ∧ (∃ r', tableBody (onCheckClick i p) !! i = Some r'
       ∧ isUnchecked r' = negb (isUnchecked r)
       ∧ isChecked r' = isUnchecked r
       ∧ buttonText (checkButton r')
         = (if isUnchecked r then CHECKED_GLYPH else UNCHECKED_GLYPH)
       ∧ styleOpacity r'
         = (if isUnchecked r then lit "0.6" else lit "1")
       ∧ (∀ t, t = lit "checked" ∨ t = lit "unchecked"
               ∨ contains t (classList (checkButton r'))
                 = contains t (classList (checkButton r)))
       ∧ nameCell r' = nameCell r
       ∧ numberCell r' = numberCell r
       ∧ areaCell r' = areaCell r
       ∧ buttonCellLabel r' = buttonCellLabel r)
  ∧ length (tableBody (onCheckClick i p)) = length (tableBody p)
  ∧ nameInput (onCheckClick i p) = nameInput p
  ∧ numberInput (onCheckClick i p) = numberInput p
  ∧ areaInput (onCheckClick i p) = areaInput p
  ∧ rowCountSpan (onCheckClick i p) = rowCountSpan p
  ∧ limitMessage (onCheckClick i p) = limitMessage p
  ∧ addRowButtonDisabled (onCheckClick i p) = addRowButtonDisabled p
  ∧ addRowButtonText (onCheckClick i p) = addRowButtonText p
  ∧ alerts (onCheckClick i p) = alerts p.
Proof.
  intros Hij Hr. unfold onCheckClick. cbn [withRows tableBody nameInput
    numberInput areaInput rowCountSpan limitMessage addRowButtonDisabled
    addRowButtonText alerts].
  rewrite list_lookup_alter_ne by exact Hij.
  rewrite list_lookup_alter_eq, length_alter, Hr.
  split; [reflexivity|]. split; [|repeat split].
  exists (toggleCheck r). destruct (toggleCheck_cells r) as (E1 & E2 & E3 & E4).
  split; [reflexivity|].
  split; [apply isUnchecked_toggleCheck|].
  split; [apply isChecked_toggleCheck|].
  split; [apply toggleCheck_buttonText|].
  split; [apply toggleCheck_styleOpacity|].
  split; [|repeat split; assumption].
  intros t. rewrite toggleCheck_contains.
  destruct (bool_decide (t = lit "unchecked")) eqn:Eu;
    [apply bool_decide_eq_true in Eu; tauto|].
  destruct (bool_decide (t = lit "checked")) eqn:Ec;
    [apply bool_decide_eq_true in Ec; tauto|].
  now right; right.
Qed.

Lemma C7_toggle_changes_one_row_witness :
  let p := withRows [sampleRow; toggleCheck sampleRow; sampleRow] blankPage in
  1%nat ≠ 2%nat
  ∧ tableBody p !! 1%nat = Some (toggleCheck sampleRow)
  ∧ tableBody (onCheckClick 1 p) !! 2%nat = Some sampleRow
  ∧ (∃ r', tableBody (onCheckClick 1 p) !! 1%nat = Some r'
       ∧ isUnchecked r' = true
       ∧ isChecked r' = false
       ∧ buttonText (checkButton r') = UNCHECKED_GLYPH
       ∧ styleOpacity r' = lit "1"
       ∧ nameCell r' = nameCell sampleRow
       ∧ buttonCellLabel r' = Some (lit "Done"))
  ∧ length (tableBody (onCheckClick 1 p)) = length (tableBody p)
  ∧ nameInput (onCheckClick 1 p) = nameInput p
  ∧ numberInput (onCheckClick 1 p) = numberInput p
  ∧ areaInput (onCheckClick 1 p) = areaInput p.
Proof.
  intros p.
  assert (1%nat ≠ 2%nat) as H by lia.
  assert (tableBody p !! 1%nat = Some (toggleCheck sampleRow)) as Hr
    by reflexivity.
  destruct (C7_toggle_changes_one_row p 1 2 (toggleCheck sampleRow) H Hr)
    as (Ej & (r' & Ei & Eu & Ec & Eg & Eo & _ & En & _ & _ & Eb)
        & El & Eni & Enum & Ea & _).
  split; [exact H|]. split; [exact Hr|]. split; [exact Ej|].
  split; [|repeat split; assumption].
  exists r'. repeat split; assumption.
Defined.

(** ** Enter and the add control *)

Lemma dispatch_enterAsClick_enabled e p :
  addRowButtonDisabled p = false →
  dispatch (enterAsClick e) p = dispatch e p.
Proof.
  intros Hen. destruct e as [f v| |f key|i]; try reflexivity.
  unfold enterAsClick.
  destruct (bool_decide (key = lit "Enter")) eqn:E; cbn [dispatch];
    unfold onInputKeypress, onAddRowClick; rewrite ?E, ?Hen; reflexivity.
Qed.

Lemma run_enterAsClick_enabled evs : ∀ p,
  Exists (λ q, addRowButtonDisabled q = true) (reached evs p)
  ∨ run (map enterAsClick evs) p = run evs p.
Proof.
  induction evs as [|e rest IH]; intros p; [now right|].
  cbn [map run reached].
  destruct (addRowButtonDisabled p) eqn:Hen;
    [left; now apply Exists_cons_hd|].
  rewrite (dispatch_enterAsClick_enabled e p Hen).
  destruct (IH (dispatch e p)) as [Hd|Hr];
    [left; now apply Exists_cons_tl|now right].
Qed.

(** C9, as the code has it: in every page in which the add control is
    enabled, an Enter key-press in any of the three inputs leaves the
    page in the same state as an activation of the add control, both
    being one call of [handleAddRow]; and in a sequence of events along
    which the control is never disabled the Enter key-presses can be
    exchanged for activations without changing the final page.  Where
    the control is disabled its activation does nothing, whereas Enter
    still calls [handleAddRow].  A key other than Enter does nothing. *)
Theorem C9_enter_same_as_enabled_add_click
  (p : Page) (f : Field) (evs : list Event) :
  addRowButtonDisabled p = false →
  onInputKeypress f (lit "Enter") p = onAddRowClick p
  ∧ dispatch (KeyPressed f (lit "Enter")) p = dispatch AddClicked p
  ∧ onAddRowClick p = handleAddRow p
  ∧ (Exists (λ q, addRowButtonDisabled q = true) (reached evs p)
     ∨ run (map enterAsClick evs) p = run evs p)
  ∧ (∀ q, dispatch (KeyPressed f (lit "Enter")) q = handleAddRow q
          ∧ dispatch AddClicked q
            = (if addRowButtonDisabled q then q else handleAddRow q))
  ∧ onInputKeypress f (lit "a") p = p.
Proof.
  intros Hen.
  assert (onAddRowClick p = handleAddRow p) as E
    by (unfold onAddRowClick; now rewrite Hen).
  split; [now rewrite onInputKeypress_Enter|].
  split; [cbn [dispatch]; now rewrite onInputKeypress_Enter|].
  split; [exact E|].
  split; [apply run_enterAsClick_enabled|].
  split; [|reflexivity].
  intros q. split; reflexivity.
Qed.

Lemma C9_enter_same_as_enabled_add_click_witness :
  let p := draftPage (lit "Dr. Rao") (lit "123-456-7890") (lit "Cardiology") in
  addRowButtonDisabled p = false
  ∧ dispatch (KeyPressed NumberField (lit "Enter")) p = dispatch AddClicked p
  ∧ onAddRowClick p = handleAddRow p
  ∧ (Exists (λ q, addRowButtonDisabled q = true)
            (reached [KeyPressed AreaField (lit "Enter"); CheckClicked 0] p)
     ∨ run (map enterAsClick
                [KeyPressed AreaField (lit "Enter"); CheckClicked 0]) p
       = run [KeyPressed AreaField (lit "Enter"); CheckClicked 0] p).
Proof.
  intros p.
  assert (addRowButtonDisabled p = false) as H by reflexivity.
  destruct (C9_enter_same_as_enabled_add_click p NumberField
              [KeyPressed AreaField (lit "Enter"); CheckClicked 0] H)
    as (_ & E1 & E2 & E3 & _).
  repeat split; assumption.
Defined.

(** The sentence of C9 as written fails on the page reached by adding
    the 160th row: the drafts are empty and the add control is disabled,
    so its activation does nothing, while Enter raises the fill-in
    notice. *)
Lemma C9_enter_differs_from_disabled_click :
  length (tableBody limitPage) = 160%nat
  ∧ addRowButtonDisabled limitPage = true
  ∧ alerts limitPage = []
  ∧ alerts (dispatch (KeyPressed NameField (lit "Enter")) limitPage)
    = [MSG_FILL]
  ∧ dispatch AddClicked limitPage = limitPage
  ∧ dispatch (KeyPressed NameField (lit "Enter")) limitPage
    ≠ dispatch AddClicked limitPage.
Proof.
  split; [vm_compute; reflexivity|]. split; [vm_compute; reflexivity|].
  split; [vm_compute; reflexivity|]. split; [vm_compute; reflexivity|].
  split; [vm_compute; reflexivity|].
  intros H. apply (f_equal alerts) in H. vm_compute in H. discriminate.
Qed.

(** ** A second attempt *)

Lemma handleAddRow_success_sync p :
  length (tableBody (handleAddRow p)) = S (length (tableBody p)) →
  displayInSync (handleAddRow p).
Proof.
  intros (Hm & Hi & Hc)%handleAddRow_success.
  rewrite handleAddRow_unfold, Hm, Hi, Hc. apply updateRowCount_sync.
Qed.

(** X15: a submission cannot be repeated by accident.  Right after a
    submission that added a row the drafts are empty, so a second
    attempt adds nothing and leaves the table with the one new row: a
    second Enter key-press raises the fill-in notice; a following
    activation of the add control raises the fill-in notice too, unless
    the new row was the 160th, in which case the control is disabled and
    its activation does nothing at all. *)
Theorem X15_second_submission_adds_nothing (p : Page) (f g : Field) :
  length (tableBody (handleAddRow p)) = S (length (tableBody p)) →
  handleAddRow (handleAddRow p) = alert MSG_FILL (handleAddRow p)
  ∧ tableBody (run [KeyPressed f (lit "Enter"); KeyPressed g (lit "Enter")] p)
    = tableBody (handleAddRow p)
  ∧ alerts (run [KeyPressed f (lit "Enter"); KeyPressed g (lit "Enter")] p)
    = alerts p ++ [MSG_FILL]
  ∧ tableBody (run [KeyPressed f (lit "Enter"); AddClicked] p)
    = tableBody (handleAddRow p)
  ∧ alerts (run [KeyPressed f (lit "Enter"); AddClicked] p)
    = alerts p ++ (if (MAX_ROWS <=? S (length (tableBody p)))%nat
                   then [] else [MSG_FILL])
  ∧ (addRowButtonDisabled p = true
     ∨ run [AddClicked; AddClicked] p
       = run [KeyPressed f (lit "Enter"); AddClicked] p).
Proof.
  intros Hs. destruct (handleAddRow_clears p Hs) as (En & Enum & Ea & Eal).
  destruct (handleAddRow_success_sync p Hs) as (_ & Ed & _).
  rewrite Hs in Ed.
  assert (handleAddRow (handleAddRow p) = alert MSG_FILL (handleAddRow p))
    as E.
  { rewrite (handleAddRow_unfold (handleAddRow p)).
    unfold missingField. now rewrite En. }
  split; [exact E|].
  cbn [run dispatch]. rewrite !onInputKeypress_Enter, E.
  cbn [alert tableBody alerts]. rewrite Eal.
  split; [reflexivity|]. split; [reflexivity|].
  unfold onAddRowClick at 1 2. rewrite Ed.
  destruct (MAX_ROWS <=? S (length (tableBody p)))%nat.
  - rewrite Eal, app_nil_r. split; [reflexivity|]. split; [reflexivity|].
    destruct (addRowButtonDisabled p) eqn:Hd; [now left|right].
    unfold onAddRowClick at 2. now rewrite Hd.
  - rewrite E. cbn [alert tableBody alerts]. rewrite Eal.
    split; [reflexivity|]. split; [reflexivity|].
    destruct (addRowButtonDisabled p) eqn:Hd; [now left|right].
    unfold onAddRowClick at 2. now rewrite Hd.
Qed.

Lemma X15_second_submission_adds_nothing_witness :
  let p := withRows (replicate 159 sampleRow)
             (draftPage (lit "Dr. Sen") (lit "987 654 3210") (lit "Neurology")) in
  length (tableBody (handleAddRow p)) = S (length (tableBody p))
  ∧ alerts (run [KeyPressed NameField (lit "Enter");
                 KeyPressed AreaField (lit "Enter")] p)
    = alerts p ++ [MSG_FILL]
  ∧ tableBody (run [KeyPressed NameField (lit "Enter"); AddClicked] p)
    = tableBody (handleAddRow p)
  ∧ alerts (run [KeyPressed NameField (lit "Enter"); AddClicked] p)
    = alerts p ++ (if (MAX_ROWS <=? S (length (tableBody p)))%nat
                   then [] else [MSG_FILL]).
Proof.
  intros p.
  assert (length (tableBody (handleAddRow p)) = S (length (tableBody p)))
    as H by (vm_compute; reflexivity).
  destruct (X15_second_submission_adds_nothing p NameField AreaField H)
    as (_ & _ & E1 & E2 & E3 & _).
  repeat split; assumption.
Defined.
